(** * Enhanced TRACE cleaning and the download helpers of tidyfinance.py

    A shallow embedding of [process_trace_data], of its caller
    [download_data_wrds_trace_enhanced] and of further functions of
    src/tidyfinance/tidyfinance.py, with properties of them.

    Modelling conventions.
    - A frame is a list of named columns of untyped cells.  The frames
      [process_trace_data] builds from its argument are read row by row
      (section Tables).  Column labels are kept as pandas keeps them:
      [rename] can give two columns one label, [merge] adds the suffixes
      [_x] and [_y] to the labels its two sides share, and a merge key that
      names no column, or two of them, raises.
    - The pandas calls are read as pandas 2 documents them.  What is left
      out: frames whose caller already repeats a label are followed only as
      far as the label lookups of [merge], [groupby] and [sort_values], and
      labels that would collide after suffixing are not considered.
    - An exception is a value: every step returns a frame or raises, and a
      raised exception ends the call.
    - Dates are day numbers (days since 1970-01-01); prices, volumes and
      yields are integers in a minimal unit (they are only compared for
      equality or carried along).
    - The additional filters of lines 1544-1556 are read on trade messages:
      records with one field per column, where [None] is pandas' NaN and
      [stlmnt_dt - trd_exctn_dt] is a number of days. *)

From Stdlib Require Import ZArith String Ascii Bool Lia Arith DecimalString DecimalNat.
From Stdlib Require Import List Permutation Sorted.
Import ListNotations.

Local Open Scope string_scope.
Local Open Scope Z_scope.
Local Open Scope list_scope.

(* ------------------------------------------------------------------ *)
(** ** Data model *)

Record TradeMessage : Type := mkMsg {
  cusip_id : string;
  msg_seq_nb : Z;
  orig_msg_seq_nb : option Z;
  trd_exctn_dt : Z;
  trd_exctn_tm : Z;
  trd_rpt_dt : Z;
  trd_rpt_tm : Z;
  entrd_vol_qt : Z;
  rptd_pr : Z;
  yld_pt : option Z;
  rpt_side_cd : string;
  cntra_mp_id : string;
  trc_st : string;
  asof_cd : option string;
  stlmnt_dt : option Z;
  days_to_sttl_ct : option Z;
  wis_fl : string;
  spcl_trd_fl : option string
}.

(** 2012-02-06 as a day number. *)
Definition CUTOVER_DATE : Z := 15376.

(* ------------------------------------------------------------------ *)
(** ** Lists of rows *)

Section Relational.
Context {A : Type}.

(** [df.query(p)] on a list of rows. *)
Definition query (p : A -> bool) (df : list A) : list A := filter p df.
End Relational.

(** [df.sort_values(keys)] with a stable sort: insertion from the right. *)
Section Sorting.
Context {A : Type} (leb : A -> A -> bool).

Fixpoint insert_sorted (x : A) (l : list A) : list A :=
  match l with
  | [] => [x]
  | y :: l' => if leb x y then x :: l else y :: insert_sorted x l'
  end.

Fixpoint sort_values (l : list A) : list A :=
  match l with
  | [] => []
  | x :: l' => insert_sorted x (sort_values l')
  end.
End Sorting.

Definition lex (c1 c2 : comparison) : comparison :=
  match c1 with Eq => c2 | _ => c1 end.

Definition is_le (c : comparison) : bool :=
  match c with Gt => false | _ => true end.

(* ------------------------------------------------------------------ *)
(** ** Additional filters (lines 1544-1556) *)




(* ------------------------------------------------------------------ *)
(** ** Frames: named columns of cells *)

Inductive cell : Type :=
| NA
| Str (s : string)
| Num (n : Z)
| Ts (day : Z).

Definition Series : Type := list cell.

(** A frame is its columns, in column order; the cells of row [i] are the
    [i]-th entries of the columns. *)
Definition DataFrame : Type := list (string * Series).

(** What a step raises.  [ParserError] is the [ValueError] of
    [pd.to_datetime] on text that is no date; [UndefinedVariableError] is
    raised by [query] for a name that is no column; [ArgumentTypeError] is
    the [TypeError] of a call whose arguments do not fit the function's
    parameters; [NoneAttributeError] is the [AttributeError] of a method
    call on [None].  [PassBudgetExceeded] is no exception of the program: it
    stands for a loop that is cut short by the pass budget of this file. *)
Inductive exn : Type :=
| KeyError (label : string)
| ValueError (message : string)
| ParserError (text : string)
| UndefinedVariableError (name : string)
| ArgumentTypeError (message : string)
| NoneAttributeError (attribute : string)
| PassBudgetExceeded.

Inductive result (A : Type) : Type :=
| Ok (a : A)
| Raise (e : exn).
Arguments Ok {A} a.
Arguments Raise {A} e.

Definition bind {A B : Type} (r : result A) (k : A -> result B) : result B :=
  match r with Ok a => k a | Raise e => Raise e end.

Notation "x <- r ;; k" := (bind r (fun x => k))
  (at level 61, r at next level, right associativity).

Definition columns (df : DataFrame) : list string := map fst df.

Fixpoint get_column (label : string) (df : DataFrame) : option Series :=
  match df with
  | [] => None
  | (l, s) :: df' => if (l =? label)%string then Some s else get_column label df'
  end.

(** [df[label] = s]: replaces the column in place, or appends a new one. *)
Fixpoint set_column (label : string) (s : Series) (df : DataFrame)
  : DataFrame :=
  match df with
  | [] => [(label, s)]
  | (l, s0) :: df' =>
      if (l =? label)%string then (l, s) :: df'
      else (l, s0) :: set_column label s df'
  end.

(** *** Reading dates and times *)

Definition digit (c : ascii) : option Z :=
  let n := Z.of_nat (nat_of_ascii c) in
  if (48 <=? n) && (n <=? 57) then Some (n - 48) else None.

Fixpoint number_from (acc : Z) (s : string) : option Z :=
  match s with
  | EmptyString => Some acc
  | String c s' =>
      match digit c with
      | Some d => number_from (10 * acc + d) s'
      | None => None
      end
  end.

(** A non-empty run of decimal digits. *)
Definition number (s : string) : option Z :=
  match s with
  | EmptyString => None
  | _ => number_from 0 s
  end.

Definition is_leap (y : Z) : bool :=
  ((y mod 4 =? 0) && negb (y mod 100 =? 0)) || (y mod 400 =? 0).

Definition days_in_month (y m : Z) : Z :=
  if m =? 2 then (if is_leap y then 29 else 28)
  else if (m =? 4) || (m =? 6) || (m =? 9) || (m =? 11) then 30
  else 31.

(** Day number of a civil date (days since 1970-01-01). *)
Definition days_from_civil (y m d : Z) : Z :=
  let y' := if m <=? 2 then y - 1 else y in
  let era := y' / 400 in
  let yoe := y' - era * 400 in
  let mp := if 2 <? m then m - 3 else m + 9 in
  let doy := (153 * mp + 2) / 5 + d - 1 in
  let doe := yoe * 365 + yoe / 4 - yoe / 100 + doy in
  era * 146097 + doe - 719468.

(** ["YYYY-MM-DD"] to a day number. *)
Definition parse_date (s : string) : option Z :=
  if negb (Nat.eqb (String.length s) 10) then None
  else if negb ((substring 4 1 s =? "-")%string
                && (substring 7 1 s =? "-")%string) then None
  else
    match number (substring 0 4 s), number (substring 5 2 s),
          number (substring 8 2 s) with
    | Some y, Some m, Some d =>
        if (1 <=? m) && (m <=? 12) && (1 <=? d) && (d <=? days_in_month y m)
        then Some (days_from_civil y m d) else None
    | _, _, _ => None
    end.

Definition two_digits (n : Z) : string :=
  String (ascii_of_nat (Z.to_nat (48 + n / 10)))
         (String (ascii_of_nat (Z.to_nat (48 + n mod 10))) EmptyString).

(** [strftime("%H:%M:%S")] of a time of day. *)
Definition strftime_HMS (t : Z) : string :=
  (two_digits (t / 3600) ++ ":" ++ two_digits ((t / 60) mod 60) ++ ":"
   ++ two_digits (t mod 60))%string.

(** [pd.to_datetime] on one cell: strings are parsed, integers count
    nanoseconds since the epoch, timestamps and NaN stay. *)
Definition to_datetime_cell (c : cell) : result cell :=
  match c with
  | NA => Ok NA
  | Ts d => Ok (Ts d)
  | Num n => Ok (Ts (n / 86400000000000))
  | Str s => match parse_date s with
             | Some d => Ok (Ts d)
             | None => Raise (ParserError s)
             end
  end.

Fixpoint to_datetime (s : Series) : result Series :=
  match s with
  | [] => Ok []
  | c :: s' =>
      c' <- to_datetime_cell c ;;
      r <- to_datetime s' ;;
      Ok (c' :: r)
  end.

Definition opt_cell {A : Type} (f : A -> cell) (x : option A) : cell :=
  match x with Some a => f a | None => NA end.

Definition isna (c : cell) : bool :=
  match c with NA => true | _ => false end.

Definition cell_eqb (a b : cell) : bool :=
  match a, b with
  | NA, NA => true
  | Str s, Str t => (s =? t)%string
  | Num n, Num m => n =? m
  | Ts d, Ts e => d =? e
  | _, _ => false
  end.

(** [x in l] on a list of strings. *)
Definition in_list (x : string) (l : list string) : bool :=
  existsb (String.eqb x) l.

(* ------------------------------------------------------------------ *)
(** ** Tables *)

(** The frames [process_trace_data] builds, row by row: the column labels
    in column order and, for every row, its cells in that order.  A label may
    occur more than once (pandas allows it, and [rename] can make it so). *)
Record Table : Type := mkTable {
  labels : list string;
  rows : list (list cell)
}.

(** [df.shape[0]] of a frame given by its columns. *)
Definition nrows (df : DataFrame) : nat :=
  match df with
  | [] => 0%nat
  | (_, s) :: _ => length s
  end.

Definition table_of (df : DataFrame) : Table :=
  mkTable (columns df)
          (map (fun i => map (fun c => nth i (snd c) NA) df)
               (seq 0 (nrows df))).

(** Every row has one cell per label. *)
Definition rectangular (t : Table) : Prop :=
  Forall (fun r => length r = length (labels t)) (rows t).

(** [label] names exactly one column of [t]. *)
Definition has_one (label : string) (t : Table) : Prop :=
  count_occ string_dec (labels t) label = 1%nat.

Fixpoint positions_from (k : nat) (label : string) (ls : list string)
  : list nat :=
  match ls with
  | [] => []
  | l :: ls' =>
      if (l =? label)%string then k :: positions_from (S k) label ls'
      else positions_from (S k) label ls'
  end.

(** The places of the columns called [label]. *)
Definition positions (label : string) (ls : list string) : list nat :=
  positions_from 0 label ls.

(** The column a merge key or a sort key names
    ([NDFrame._get_label_or_level_values]): a label that is absent is a
    [KeyError], a label that two columns carry a [ValueError]. *)
Definition label_position (label : string) (t : Table) : result nat :=
  match positions label (labels t) with
  | [] => Raise (KeyError label)
  | [p] => Ok p
  | _ :: _ :: _ =>
      Raise (ValueError ("The column label '" ++ label ++ "' is not unique."))
  end.

(** The column a [groupby] key names. *)
Definition grouper_position (label : string) (t : Table) : result nat :=
  match positions label (labels t) with
  | [] => Raise (KeyError label)
  | [p] => Ok p
  | _ :: _ :: _ =>
      Raise (ValueError ("Grouper for '" ++ label ++ "' not 1-dimensional"))
  end.

Fixpoint collect {A : Type} (l : list (result A)) : result (list A) :=
  match l with
  | [] => Ok []
  | r :: l' => a <- r ;; t <- collect l' ;; Ok (a :: t)
  end.

Definition cells_at (ps : list nat) (row : list cell) : list cell :=
  map (fun p => nth p row NA) ps.

(** The cells of a row (or the labels themselves) under the labels that pass
    [keep]. *)
Definition select {A : Type} (keep : string -> bool) (ls : list string)
           (r : list A) : list A :=
  map snd (filter (fun lc => keep (fst lc)) (combine ls r)).

(** *** Tests on a cell, as the [query] strings spell them *)

(** ["c == 'code'"]. *)
Definition is_code (code : string) (c : cell) : bool :=
  match c with Str s => (s =? code)%string | _ => false end.

(** ["c in ['a', 'b']"]. *)
Definition in_codes (codes : list string) (c : cell) : bool :=
  match c with Str s => in_list s codes | _ => false end.

(** ["c >= '2012-02-06'"] and ["c < '2012-02-06'"] on a column of
    timestamps; a missing timestamp passes neither. *)
Definition on_or_after (day : Z) (c : cell) : bool :=
  match c with Ts d => day <=? d | _ => false end.

Definition before (day : Z) (c : cell) : bool :=
  match c with Ts d => d <? day | _ => false end.

(** ["c.isna() or c not in ['a', 'b']"]. *)
Definition isna_or_not_in (codes : list string) (c : cell) : bool :=
  match c with
  | NA => true
  | Str s => negb (in_list s codes)
  | _ => true
  end.

(** *** Order of cells *)

(** Ascending order as [sort_values] and [groupby] use it: numbers, dates
    and strings each in their own order, a missing value last.  A column
    holds values of one kind; between kinds the order is a convention of
    this file (numbers, then dates, then strings). *)
Definition cell_compare (a b : cell) : comparison :=
  match a, b with
  | NA, NA => Eq
  | NA, _ => Gt
  | _, NA => Lt
  | Num x, Num y => x ?= y
  | Num _, _ => Lt
  | _, Num _ => Gt
  | Ts x, Ts y => x ?= y
  | Ts _, _ => Lt
  | _, Ts _ => Gt
  | Str x, Str y => String.compare x y
  end.

Fixpoint cells_compare (a b : list cell) : comparison :=
  match a, b with
  | [], [] => Eq
  | [], _ :: _ => Lt
  | _ :: _, [] => Gt
  | x :: a', y :: b' => lex (cell_compare x y) (cells_compare a' b')
  end.

Definition cells_leb (a b : list cell) : bool := is_le (cells_compare a b).

Fixpoint cells_eqb (a b : list cell) : bool :=
  match a, b with
  | [], [] => true
  | x :: a', y :: b' => cell_eqb x y && cells_eqb a' b'
  | _, _ => false
  end.

(** *** Numbering the rows of each group *)

Section Numbering.
Context {A K : Type}.
Variable key : A -> K.
Variable key_eqb : K -> K -> bool.
Variable key_leb : K -> K -> bool.
Variable leb : A -> A -> bool.

Fixpoint unique (l : list K) : list K :=
  match l with
  | [] => []
  | x :: l' => if existsb (key_eqb x) l' then unique l' else x :: unique l'
  end.

(** The distinct group keys of a frame, ascending. *)
Definition group_keys (df : list A) : list K :=
  sort_values key_leb (unique (map key df)).

(** The rows of one group, in frame order. *)
Definition group_of (k : K) (df : list A) : list A :=
  filter (fun m => key_eqb (key m) k) df.

(** [df.groupby(keys)]: the groups, ascending by key. *)
Definition groupby (df : list A) : list (list A) :=
  map (fun k => group_of k df) (group_keys df).

(** [x.sort_values(by).reset_index(drop=True)
      .assign(seq=range(1, len(x) + 1))] on one group [x]. *)
Definition assign_seq (x : list A) : list (A * nat) :=
  let sorted := sort_values leb x in
  combine sorted (seq 1 (length sorted)).

(** [df.groupby(keys).apply(lambda x: ...).reset_index(drop=True)]. *)
Definition with_seq (df : list A) : list (A * nat) :=
  flat_map assign_seq (groupby df).
End Numbering.

(** *** The pandas calls *)

Inductive how : Type := how_left | how_inner.

Module Pd.

(** [t.query("<name> <test>")], for an expression that names one column:
    the rows whose cell passes the test.  A name that is no column is
    pandas' [UndefinedVariableError]. *)
Definition query (name : string) (test : cell -> bool) (t : Table)
  : result Table :=
  match positions name (labels t) with
  | [] => Raise (UndefinedVariableError name)
  | p :: _ =>
      Ok (mkTable (labels t) (filter (fun r => test (nth p r NA)) (rows t)))
  end.

(** [t.rename(columns={old: new})]: every column called [old] is called
    [new]; the columns that were called [new] keep their label. *)
Definition rename (old new : string) (t : Table) : Table :=
  mkTable (map (fun l => if (l =? old)%string then new else l) (labels t))
          (rows t).

(** [t.drop(columns=dropped)]; a label that is no column is a [KeyError]. *)
Definition drop (dropped : list string) (t : Table) : result Table :=
  match filter (fun l => negb (in_list l (labels t))) dropped with
  | missing :: _ => Raise (KeyError missing)
  | [] =>
      let keep l := negb (in_list l dropped) in
      Ok (mkTable (filter keep (labels t))
                  (map (select keep (labels t)) (rows t)))
  end.

(** [t.get(keys)] for a list of labels: the columns of these labels, in
    the order of [keys]; [None] as soon as one of them is no column. *)
Definition get (keys : list string) (t : Table) : option Table :=
  if forallb (fun l => in_list l (labels t)) keys
  then Some (mkTable
               (flat_map (fun l => map (fun _ => l) (positions l (labels t)))
                         keys)
               (map (fun r =>
                       flat_map (fun l => cells_at (positions l (labels t)) r)
                                keys)
                    (rows t)))
  else None.

(** [pd.concat([a, b], ignore_index=True)]: the columns of [a], then those
    of [b] that [a] lacks; the rows of [a], then those of [b], a cell
    missing where the frame it comes from lacks the column. *)
Definition concat (a b : Table) : Table :=
  let ls := labels a ++ filter (fun l => negb (in_list l (labels a)))
                               (labels b) in
  let lay (t : Table) (r : list cell) :=
    map (fun l => match positions l (labels t) with
                  | p :: _ => nth p r NA
                  | [] => NA
                  end) ls in
  mkTable ls (map (lay a) (rows a) ++ map (lay b) (rows b)).

(** The key columns of [left.merge(right, on=on)], looked up key by key, in
    the right frame and then in the left one. *)
Fixpoint merge_keys (on : list string) (left right : Table)
  : result (list (nat * nat)) :=
  match on with
  | [] => Ok []
  | k :: on' =>
      rp <- label_position k right ;;
      lp <- label_position k left ;;
      ks <- merge_keys on' left right ;;
      Ok ((lp, rp) :: ks)
  end.

(** Do the rows [l] and [r] agree on every key?  Two missing values
    agree. *)
Definition keys_match (ks : list (nat * nat)) (l r : list cell) : bool :=
  forallb (fun k => cell_eqb (nth (fst k) l NA) (nth (snd k) r NA)) ks.

Definition suffix_if (overlap : list string) (suffix l : string) : string :=
  if in_list l overlap then (l ++ suffix)%string else l.

(** [left.merge(right, on=on, how=h, indicator=indicator)].  The result has
    the columns of [left], then the columns of [right] that are no keys,
    then the indicator; a label that both parts carry gets the suffix [_x]
    on the left and [_y] on the right.  Rows come in the order of [left],
    each once per row of [right] it agrees with on the keys;
    with [how="left"] a row that agrees with none comes once, its right part
    missing.  (pandas 2 refuses a merge whose suffixes would repeat a label;
    no frame below has such labels.) *)
Definition merge (h : how) (on : list string) (indicator : bool)
           (left right : Table) : result Table :=
  ks <- merge_keys on left right ;;
  if indicator && (in_list "_merge" (labels left)
                   || in_list "_merge" (labels right))
  then Raise (ValueError
                "Cannot use name of an existing column for indicator column")
  else
    let not_key l := negb (in_list l on) in
    let rest := filter not_key (labels right) in
    let mark code := if indicator then [Str code] else [] in
    Ok (mkTable
          (map (suffix_if rest "_x") (labels left)
           ++ map (suffix_if (labels left) "_y") rest
           ++ (if indicator then ["_merge"] else []))
          (flat_map
             (fun l =>
                match filter (keys_match ks l) (rows right) with
                | [] =>
                    match h with
                    | how_left =>
                        [l ++ repeat NA (length rest) ++ mark "left_only"]
                    | how_inner => []
                    end
                | r :: rs =>
                    map (fun r' => l ++ select not_key (labels right) r'
                                     ++ mark "both")
                        (r :: rs)
                end)
             (rows left))).

(** [t.groupby(by).apply(lambda x: x.sort_values(sort_by)
      .reset_index(drop=True).assign(seq=range(1, len(x) + 1)))
      .reset_index(drop=True)].
    Rows with a missing group key belong to no group.  When there is no
    group the lambda is never called and the result has the columns of [t]
    and no rows: there is no [seq] column then. *)
Definition numbered (by_ sort_by : list string) (t : Table) : result Table :=
  kp <- collect (map (fun l => grouper_position l t) by_) ;;
  match filter (fun r => negb (existsb isna (cells_at kp r))) (rows t) with
  | [] => Ok (mkTable (labels t) [])
  | x :: xs =>
      sp <- collect (map (fun l => label_position l t) sort_by) ;;
      let seq_cell (r : list cell) (s : nat) : list cell :=
        match positions "seq" (labels t) with
        | [] => r ++ [Num (Z.of_nat s)]
        | p :: _ => firstn p r ++ Num (Z.of_nat s) :: skipn (S p) r
        end in
      Ok (mkTable
            (if in_list "seq" (labels t) then labels t
             else labels t ++ ["seq"])
            (map (fun rs => seq_cell (fst rs) (snd rs))
                 (with_seq (cells_at kp) cells_eqb cells_leb
                           (fun a b => cells_leb (cells_at sp a)
                                                 (cells_at sp b))
                           (x :: xs))))
  end.

(** [frame.pipe(pd.concat, objs, ignore_index=True)] calls
    [pd.concat(frame, objs, ignore_index=True)].  [pd.concat] takes the
    frames to put together as its one positional argument, so the call is
    refused with a [TypeError] and yields nothing. *)
Definition pipe_concat {A : Type} (frame : Table) (objs : list Table)
  : result A :=
  Raise (ArgumentTypeError
           ("concat() takes 1 positional argument but 2 positional "
            ++ "arguments (and 1 keyword-only argument) were given")).

End Pd.

(* ------------------------------------------------------------------ *)
(** ** The cleaning steps of [process_trace_data] *)

(** The eight merge keys of lines 1360-1362 (K_econ). *)
Definition K_econ_labels : list string :=
  [ "cusip_id"; "msg_seq_nb"; "entrd_vol_qt"; "rptd_pr"; "rpt_side_cd";
    "cntra_mp_id"; "trd_exctn_dt"; "trd_exctn_tm" ].

(** The six [groupby] keys of lines 1479-1480 (K_grp). *)
Definition K_grp_labels : list string :=
  [ "cusip_id"; "trd_exctn_dt"; "entrd_vol_qt"; "rptd_pr"; "rpt_side_cd";
    "cntra_mp_id" ].

(** The sort keys of lines 1481-1482. *)
Definition report_time_labels : list string :=
  [ "trd_exctn_tm"; "trd_rpt_dt"; "trd_rpt_tm" ].

(** The merge keys of the correction loop, lines 1432 and 1441. *)
Definition correction_labels : list string :=
  [ "cusip_id"; "trd_exctn_dt"; "orig_msg_seq_nb" ].

(** The merge keys of lines 1527. *)
Definition agency_labels : list string :=
  [ "cusip_id"; "trd_exctn_dt"; "entrd_vol_qt"; "rptd_pr" ].

(** [left.merge(right, on=on, how="left", indicator=True)
      .query("_merge == 'left_only'").drop(columns=dropped)]. *)
Definition left_only (on dropped : list string) (left right : Table)
  : result Table :=
  merged <- Pd.merge how_left on true left right ;;
  unmatched <- Pd.query "_merge" (is_code "left_only") merged ;;
  Pd.drop dropped unmatched.

(** [trace_all.query("trc_st in [...]").query("trd_rpt_dt ...")]. *)
Definition status_rows (codes : list string) (regime : cell -> bool)
           (trace_all : Table) : result Table :=
  selected <- Pd.query "trc_st" (in_codes codes) trace_all ;;
  Pd.query "trd_rpt_dt" regime selected.

(** Lines 1358-1368: trades and corrections without the cancelled ones. *)
Definition cancel_post (trace_post_TR trace_post_XC : Table) : result Table :=
  left_only K_econ_labels ["_merge"] trace_post_TR trace_post_XC.

(** Lines 1379-1390 and 1405-1415: the same merge against a frame whose
    [orig_msg_seq_nb] column is renamed to [msg_seq_nb]. *)
Definition cancel_by_reference (trades references : Table) : result Table :=
  left_only K_econ_labels ["_merge"] trades
            (Pd.rename "orig_msg_seq_nb" "msg_seq_nb" references).

(** Lines 1348-1390. *)
Definition trace_post (trace_all : Table) : result Table :=
  trace_post_TR <- status_rows ["T"; "R"] (on_or_after CUTOVER_DATE)
                               trace_all ;;
  trace_post_XC <- status_rows ["X"; "C"] (on_or_after CUTOVER_DATE)
                               trace_all ;;
  trace_post_TR <- cancel_post trace_post_TR trace_post_XC ;;
  (* line 1372 selects the status 'S' *)
  trace_post_Y <- status_rows ["S"] (on_or_after CUTOVER_DATE) trace_all ;;
  cancel_by_reference trace_post_TR trace_post_Y.

(** Lines 1394-1415. *)
Definition trace_pre_T0 (trace_all : Table) : result Table :=
  trace_pre_C <- status_rows ["C"] (before CUTOVER_DATE) trace_all ;;
  trades <- status_rows ["T"] (before CUTOVER_DATE) trace_all ;;
  cancel_by_reference trades trace_pre_C.

(** Lines 1418-1421. *)
Definition trace_pre_W0 (trace_all : Table) : result Table :=
  status_rows ["W"] (before CUTOVER_DATE) trace_all.

(** *** The correction loop (lines 1422-1472) *)

Record loop_state : Type := mkLoop {
  trace_pre_T : Table;
  trace_pre_W : Table;
  correction_control : nat;
  correction_control_last : nat
}.

(** Lines 1424-1425. *)
Definition loop_init (T W : Table) : loop_state :=
  mkLoop T W (length (rows W)) (length (rows W)).

(** One pass through the body of the [while], lines 1429-1472. *)
Definition loop_body (s : loop_state) : result loop_state :=
  let T := trace_pre_T s in
  let W := trace_pre_W s in
  (* lines 1430-1437 *)
  joined <- Pd.merge how_inner correction_labels false W
                     (Pd.rename "msg_seq_nb" "orig_msg_seq_nb" T) ;;
  let trace_pre_W_correcting := Pd.get (labels W) joined in
  (* lines 1439-1447 *)
  W' <- left_only correction_labels ["_merge"] W
                  (Pd.rename "msg_seq_nb" "orig_msg_seq_nb" T) ;;
  (* lines 1450-1459 *)
  match trace_pre_W_correcting with
  | None => Raise (NoneAttributeError "rename")
  | Some correcting =>
      T' <- left_only ["cusip_id"; "trd_exctn_dt"; "msg_seq_nb"] ["_merge"] T
                      (Pd.rename "orig_msg_seq_nb" "msg_seq_nb" correcting) ;;
      (* lines 1462-1472 *)
      let T'' := Pd.concat T' correcting in
      let control := length (rows W') in
      let control' :=
        if Nat.eqb control (correction_control_last s) then 0%nat
        else control in
      Ok (mkLoop T'' W' control' (length (rows W')))
  end.

(** [while correction_control > 0: body], with at most [fuel] passes:
    [None] if the passes allowed are used up. *)
Fixpoint while_loop (fuel : nat) (s : loop_state)
  : option (result loop_state) :=
  if Nat.eqb (correction_control s) 0 then Some (Ok s)
  else match fuel with
       | O => None
       | S fuel' =>
           match loop_body s with
           | Raise e => Some (Raise e)
           | Ok s' => while_loop fuel' s'
           end
       end.

(** The loop run from lines 1424-1425 with as many passes allowed as there
    are pending corrections. *)
Definition correction_loop (T W : Table) : option (result loop_state) :=
  while_loop (length (rows W)) (loop_init T W).

(** *** Reversals in the pre-cutover branch (lines 1474-1508) *)

Definition reversal_step (trace_pre_T : Table) : result Table :=
  (* lines 1476-1487 *)
  reversals <- Pd.query "asof_cd" (is_code "R") trace_pre_T ;;
  trace_pre_R <- Pd.numbered K_grp_labels report_time_labels reversals ;;
  (* lines 1490-1508 *)
  regular <- Pd.query "asof_cd" (isna_or_not_in ["R"; "X"; "D"])
                      trace_pre_T ;;
  regular <- Pd.numbered K_grp_labels report_time_labels regular ;;
  left_only (K_grp_labels ++ ["seq"]) ["seq"; "_merge"] regular trace_pre_R.

(** *** Agency trades (lines 1510-1542) *)

(** Lines 1516-1542.  The step ends in the call of lines 1535-1542, which
    never yields a frame. *)
Definition agency_clean {A : Type} (trace_clean : Table) : result A :=
  (* lines 1516-1519 *)
  dealer <- Pd.query "cntra_mp_id" (is_code "D") trace_clean ;;
  trace_agency_sells <- Pd.query "rpt_side_cd" (is_code "S") dealer ;;
  (* lines 1522-1532 *)
  dealer <- Pd.query "cntra_mp_id" (is_code "D") trace_clean ;;
  buys <- Pd.query "rpt_side_cd" (is_code "B") dealer ;;
  trace_agency_buys_filtered <-
    left_only agency_labels ["_merge"] buys trace_agency_sells ;;
  (* lines 1535-1542 *)
  customer <- Pd.query "cntra_mp_id" (is_code "C") trace_clean ;;
  Pd.pipe_concat customer [trace_agency_sells; trace_agency_buys_filtered].

(** *** The steps in sequence (lines 1348-1542) *)

(** What follows line 1542 in the source (the additional filters and the
    projection, lines 1544-1571) comes after a call that never returns
    normally. *)
Definition clean_table (trace_all : Table) : result DataFrame :=
  trace_post <- trace_post trace_all ;;
  T0 <- trace_pre_T0 trace_all ;;
  W0 <- trace_pre_W0 trace_all ;;
  s <- match correction_loop T0 W0 with
       | Some r => r
       | None => Raise PassBudgetExceeded
       end ;;
  trace_pre <- reversal_step (trace_pre_T s) ;;
  (* line 1512 *)
  let trace_clean := Pd.concat trace_post trace_pre in
  agency_clean trace_clean.

(* ------------------------------------------------------------------ *)
(** ** [process_trace_data] and its caller *)

(** The function receives the caller's frame object.  The result pairs what
    the call returns or raises with the caller's frame as the call leaves
    it. *)
Definition process_trace_data (trace_all : DataFrame)
  : result DataFrame * DataFrame :=
  match get_column "trd_rpt_dt" trace_all with
  | None => (Raise (KeyError "trd_rpt_dt"), trace_all)
  | Some rpt_dt =>
      match to_datetime rpt_dt with
      | Raise e => (Raise e, trace_all)
      | Ok rpt_dt' =>
          (* line 1347: trace_all['trd_rpt_dt'] = ... *)
          let trace_all' := set_column "trd_rpt_dt" rpt_dt' trace_all in
          (clean_table (table_of trace_all'), trace_all')
      end
  end.

(** The columns of the SELECT on lines 1314-1315. *)
Definition query_columns : list string :=
  [ "cusip_id"; "trd_exctn_dt"; "trd_exctn_tm"; "rptd_pr"; "entrd_vol_qt";
    "yld_pt"; "rpt_side_cd"; "cntra_mp_id"; "trc_st"; "asof_cd" ].

(** Lines 1308-1328; [trace_data] is what [pd.read_sql] returned. *)
Definition download_data_wrds_trace_enhanced
           (cusips : list string) (trace_data : DataFrame)
  : result DataFrame :=
  if forallb (fun cusip => Nat.eqb (String.length cusip) 9) cusips
  then fst (process_trace_data trace_data)
  else Raise (ValueError "All CUSIPs must be 9-character strings.").

(* ------------------------------------------------------------------ *)
(** ** Sample messages *)

(** A pre-cutover customer buy of bond 123456789, executed on day 15000 at
    10:00:00 and settled two days later. *)
Definition sample (st : string) (seq : Z) (orig : option Z) (pr : Z)
  : TradeMessage :=
  mkMsg "123456789" seq orig 15000 36000 15000 36100 100 pr None
        "B" "C" st None (Some 15002) (Some 2) "N" None.

Definition chain_T1 : TradeMessage := sample "T" 1 None 995.
Definition chain_W1 : TradeMessage := sample "W" 2 (Some 1) 1000.
Definition chain_W2 : TradeMessage := sample "W" 3 (Some 2) 1005.

(** A trade of another bond on the same day. *)
Definition other_T : TradeMessage :=
  mkMsg "987654321" 1 None 15000 36000 15000 36100 50 1010 None
        "S" "C" "T" None (Some 15002) (Some 2) "N" None.



(** A correction whose target (number 99) was never reported. *)
Definition orphan_W : TradeMessage := sample "W" 7 (Some 99) 1020.

(** A frame with all the columns the pipeline reads, holding [msgs], with
    the report dates given as the feed delivers them. *)
Definition sample_frame (rpt_dt : Series) (msgs : list TradeMessage)
  : DataFrame :=
  [ ("cusip_id", map (fun m => Str (cusip_id m)) msgs);
    ("msg_seq_nb", map (fun m => Num (msg_seq_nb m)) msgs);
    ("orig_msg_seq_nb", map (fun m => opt_cell Num (orig_msg_seq_nb m)) msgs);
    ("trd_exctn_dt", map (fun m => Num (trd_exctn_dt m)) msgs);
    ("trd_exctn_tm", map (fun m => Str (strftime_HMS (trd_exctn_tm m))) msgs);
    ("trd_rpt_dt", rpt_dt);
    ("trd_rpt_tm", map (fun m => Str (strftime_HMS (trd_rpt_tm m))) msgs);
    ("entrd_vol_qt", map (fun m => Num (entrd_vol_qt m)) msgs);
    ("rptd_pr", map (fun m => Num (rptd_pr m)) msgs);
    ("yld_pt", map (fun m => opt_cell Num (yld_pt m)) msgs);
    ("rpt_side_cd", map (fun m => Str (rpt_side_cd m)) msgs);
    ("cntra_mp_id", map (fun m => Str (cntra_mp_id m)) msgs);
    ("trc_st", map (fun m => Str (trc_st m)) msgs);
    ("asof_cd", map (fun m => opt_cell Str (asof_cd m)) msgs);
    ("stlmnt_dt", map (fun m => opt_cell Num (stlmnt_dt m)) msgs);
    ("days_to_sttl_ct", map (fun m => opt_cell Num (days_to_sttl_ct m)) msgs);
    ("wis_fl", map (fun m => Str (wis_fl m)) msgs);
    ("spcl_trd_fl", map (fun m => opt_cell Str (spcl_trd_fl m)) msgs) ].

(** The chain and the orphan, all reported on 2011-01-26 (day 15000). *)
Definition chain_frame : DataFrame :=
  sample_frame [Str "2011-01-26"; Str "2011-01-26"; Str "2011-01-26";
                Str "2011-01-26"]
               [chain_T1; chain_W1; chain_W2; orphan_W].

(** A frame with the ten columns of the SELECT on lines 1314-1315. *)
Definition downloaded_frame : DataFrame :=
  [ ("cusip_id", [Str "123456789"]); ("trd_exctn_dt", [Num 15000]);
    ("trd_exctn_tm", [Str "10:00:00"]); ("rptd_pr", [Num 995]);
    ("entrd_vol_qt", [Num 100]); ("yld_pt", [NA]);
    ("rpt_side_cd", [Str "B"]); ("cntra_mp_id", [Str "C"]);
    ("trc_st", [Str "T"]); ("asof_cd", [NA]) ].

(* ------------------------------------------------------------------ *)
(** ** Further vocabulary for the pipeline *)



(** Does [s] end in [suffix]? *)
Fixpoint ends_with (suffix s : string) : bool :=
  (s =? suffix)%string
  || match s with
     | EmptyString => false
     | String _ s' => ends_with suffix s'
     end.



(** The labels of [left.merge(right, on=on, how=..., indicator=True)]. *)
Definition merged_labels (on : list string) (left right : Table)
  : list string :=
  map (Pd.suffix_if (filter (fun l => negb (in_list l on)) (labels right))
                    "_x") (labels left)
  ++ map (Pd.suffix_if (labels left) "_y")
         (filter (fun l => negb (in_list l on)) (labels right))
  ++ ["_merge"].

(** The messages [msgs] as the table a step of the pipeline works on: all
    columns, the report dates as timestamps. *)
Definition table_of_messages (msgs : list TradeMessage) : Table :=
  table_of (sample_frame (map (fun m => Ts (trd_rpt_dt m)) msgs) msgs).

(** The place of the first column called [label] (past the last column if
    there is none), and the cells of a row under the labels [on]. *)
Definition first_position (label : string) (ls : list string) : nat :=
  match positions label ls with
  | p :: _ => p
  | [] => length ls
  end.

Definition key_positions (on : list string) (t : Table) : list nat :=
  map (fun l => first_position l (labels t)) on.

Definition key_cells (on : list string) (t : Table) (r : list cell)
  : list cell :=
  cells_at (key_positions on t) r.


(** Messages reported after the cutover (day 15400): a trade, the
    cancellation of that trade, and a trade of another bond. *)
Definition post_T : TradeMessage :=
  mkMsg "123456789" 1 None 15400 36000 15400 36100 100 995 None
        "B" "C" "T" None (Some 15402) (Some 2) "N" None.

Definition post_X : TradeMessage :=
  mkMsg "123456789" 1 None 15400 36000 15400 36500 100 995 None
        "B" "C" "X" None (Some 15402) (Some 2) "N" None.

Definition post_other : TradeMessage :=
  mkMsg "987654321" 1 None 15400 36000 15400 36100 50 1010 None
        "S" "C" "T" None (Some 15402) (Some 2) "N" None.

(** A pre-cutover cancellation pointing at [chain_T1]. *)
Definition cancel_of_T1 : TradeMessage := sample "C" 4 (Some 1) 995.

(** Frames that carry nothing but the merge keys of the correction loop:
    an active frame with one trade and a pending frame with one correction
    that points at sequence number 99, which no trade has. *)
Definition keys_only_T : Table :=
  mkTable ["cusip_id"; "trd_exctn_dt"; "msg_seq_nb"]
          [[Str "123456789"; Num 15000; Num 1]].

Definition keys_only_W : Table :=
  mkTable ["cusip_id"; "trd_exctn_dt"; "orig_msg_seq_nb"]
          [[Str "123456789"; Num 15000; Num 99]].

(** *** Vocabulary for the reversal step *)












(* ------------------------------------------------------------------ *)
(** ** Python values, strings and calls *)

#[warnings="-register-all"]
Inductive pyval : Type :=
| PNone
| PStr (s : string)
| PInt (n : Z)
| PList (l : list pyval).

(** What a call raises: an exception of the frame layer, or one of the
    interpreter's own. *)
Inductive pyexn : Type :=
| Raised (e : exn)
| TypeError (message : string)
| NameError (name : string)
| AttributeError (message : string).

Inductive pyresult (A : Type) : Type :=
| Return (a : A)
| Throw (e : pyexn).
Arguments Return {A} a.
Arguments Throw {A} e.

Definition lift {A : Type} (r : result A) : pyresult A :=
  match r with Ok a => Return a | Raise e => Throw (Raised e) end.

Fixpoint startswith (sub s : string) : bool :=
  match sub, s with
  | EmptyString, _ => true
  | String _ _, EmptyString => false
  | String a sub', String b s' => Ascii.eqb a b && startswith sub' s'
  end.

(** [sub in s] on strings. *)
Fixpoint str_in (sub s : string) : bool :=
  startswith sub s
  || match s with
     | EmptyString => false
     | String _ s' => str_in sub s'
     end.

(** [str(n)] and [f"{n}"] for a non-negative integer. *)
Definition decimal (n : nat) : string :=
  NilEmpty.string_of_uint (Nat.to_uint n).

Definition is_digit (c : ascii) : bool :=
  let n := nat_of_ascii c in (Nat.leb 48 n && Nat.leb n 57)%bool.

Fixpoint all_digits (s : string) : bool :=
  match s with
  | EmptyString => true
  | String c s' => is_digit c && all_digits s'
  end.

Definition kwargs : Type := list (string * pyval).

Fixpoint kw_lookup (k : string) (kw : kwargs) : option pyval :=
  match kw with
  | [] => None
  | (k', v) :: kw' => if (k' =? k)%string then Some v else kw_lookup k kw'
  end.

(** Binding the arguments of a call to the parameters of a [def] without
    [*args] or [**kwargs]: keyword arguments are checked first, then the
    number of positional arguments, then the parameters left unbound.
    [params] lists the parameter names with their defaults. *)
Fixpoint bind_positional (params : list (string * option pyval))
         (positional : list pyval) : list (string * pyval) :=
  match params, positional with
  | (p, _) :: params', v :: positional' =>
      (p, v) :: bind_positional params' positional'
  | _, _ => []
  end.

Fixpoint check_keywords (fname : string)
         (params : list (string * option pyval))
         (bound : list (string * pyval)) (kw : kwargs) : option pyexn :=
  match kw with
  | [] => None
  | (k, _) :: kw' =>
      if negb (in_list k (map fst params))
      then Some (TypeError (fname ++ "() got an unexpected keyword argument '"
                                  ++ k ++ "'"))
      else if in_list k (map fst bound)
      then Some (TypeError (fname ++ "() got multiple values for argument '"
                                  ++ k ++ "'"))
      else check_keywords fname params bound kw'
  end.

Fixpoint fill_parameters (fname : string)
         (params : list (string * option pyval))
         (bound : list (string * pyval)) (kw : kwargs)
  : pyresult (list pyval) :=
  match params with
  | [] => Return []
  | (p, default) :: params' =>
      let value :=
        match kw_lookup p bound with
        | Some v => Some v
        | None => match kw_lookup p kw with
                  | Some v => Some v
                  | None => default
                  end
        end in
      match value with
      | None => Throw (TypeError (fname ++ "() missing 1 required positional "
                                        ++ "argument: '" ++ p ++ "'"))
      | Some v =>
          match fill_parameters fname params' bound kw with
          | Return vs => Return (v :: vs)
          | Throw e => Throw e
          end
      end
  end.

Definition bind_arguments (fname : string)
           (params : list (string * option pyval))
           (positional : list pyval) (kw : kwargs) : pyresult (list pyval) :=
  let bound := bind_positional params positional in
  match check_keywords fname params bound kw with
  | Some e => Throw e
  | None =>
      if Nat.ltb (length params) (length positional)
      then Throw (TypeError (fname ++ "() takes too many positional arguments"))
      else fill_parameters fname params bound kw
  end.

(** [for x in v]: the items a value yields, if it can be iterated; a string
    yields its characters as one-character strings. *)
Fixpoint characters (s : string) : list pyval :=
  match s with
  | EmptyString => []
  | String c s' => PStr (String c EmptyString) :: characters s'
  end.

Definition iterate (v : pyval) : option (list pyval) :=
  match v with
  | PList l => Some l
  | PStr s => Some (characters s)
  | PNone => None
  | PInt _ => None
  end.

(* ------------------------------------------------------------------ *)
(** ** The download dispatchers (lines 271-360, 401-472, 786-826,
       1287-1328) *)

(** [all(isinstance(cusip, str) and len(cusip) == 9 for cusip in cusips)]. *)
Definition is_cusip (v : pyval) : bool :=
  match v with
  | PStr s => Nat.eqb (String.length s) 9
  | _ => false
  end.

Definition as_string (v : pyval) : string :=
  match v with PStr s => s | _ => "" end.

(** [download_data_wrds_trace_enhanced] as a callee: the arguments are bound
    to (cusips, start_date=None, end_date=None), then line 1308 iterates
    over [cusips]; [trace_data] is what [pd.read_sql] returns. *)
Definition call_download_data_wrds_trace_enhanced
           (positional : list pyval) (kw : kwargs) (trace_data : DataFrame)
  : pyresult DataFrame :=
  match bind_arguments "download_data_wrds_trace_enhanced"
                       [("cusips", None); ("start_date", Some PNone);
                        ("end_date", Some PNone)] positional kw with
  | Throw e => Throw e
  | Return [cusips; start_date; end_date] =>
      match iterate cusips with
      | None => Throw (TypeError "object is not iterable")
      | Some items =>
          if forallb is_cusip items
          then lift (download_data_wrds_trace_enhanced
                       (map as_string items) trace_data)
          else Throw (Raised (ValueError
                                "All CUSIPs must be 9-character strings."))
      end
  | Return _ => Throw (TypeError "unreachable")
  end.

Section Downloads.
(** The downloaders that reach the network or the database, by name, with
    the arguments they are called with. *)
Variable call_external : string -> list pyval -> kwargs -> pyresult DataFrame.
(** [_validate_dates] of [_internal]. *)
Variable _validate_dates : pyval -> pyval -> pyresult (pyval * pyval).
(** [pd.Timestamp.today().year - 1]. *)
Variable ref_year : nat.
(** What [pd.read_sql] returns for the TRACE query. *)
Variable trace_data : DataFrame.

(** Lines 497-506 of the Global Q downloader. *)
Definition q_data_sets : list string :=
  [ "q5_factors_daily_" ++ decimal ref_year;
    "q5_factors_weekly_" ++ decimal ref_year;
    "q5_factors_weekly_w2w_" ++ decimal ref_year;
    "q5_factors_monthly_" ++ decimal ref_year;
    "q5_factors_quarterly_" ++ decimal ref_year;
    "q5_factors_annual_" ++ decimal ref_year ]%string.

(** Lines 401-472: the dates are validated, the name is looked up, and the
    file is fetched and processed ([call_external "pd.read_csv"]). *)
Definition download_data_factors_q (data_set : string)
           (start_date end_date : pyval) : pyresult DataFrame :=
  match _validate_dates start_date end_date with
  | Throw e => Throw e
  | Return (start_date', end_date') =>
      if in_list data_set q_data_sets
      then call_external "pd.read_csv"
             [PStr ("https://global-q.org/uploads/1/2/2/6/122679606/"
                    ++ data_set ++ ".csv"); start_date'; end_date'] []
      else Throw (Raised (ValueError
             "Returning an empty data set due to download failure."))
  end.

(** Lines 329-359. *)
Definition download_data_factors (data_set : string)
           (start_date end_date : pyval) (kw : kwargs)
  : pyresult DataFrame :=
  if str_in "factors_ff" data_set
  then call_external "download_data_factors_ff"
                     [PStr data_set; start_date; end_date] []
  else if str_in "factors_q" data_set
  then download_data_factors_q data_set start_date end_date
  else Throw (Raised (ValueError "Unsupported factor data type.")).

(** Lines 786-826. *)
Definition download_data_wrds (data_type : string)
           (start_date end_date : pyval) (kw : kwargs)
  : pyresult DataFrame :=
  if str_in "wrds_crsp" data_type
  then call_external "download_data_wrds_crsp"
                     [PStr data_type; start_date; end_date] kw
  else if str_in "wrds_compustat" data_type
  then call_external "download_data_wrds_compustat"
                     [PStr data_type; start_date; end_date] kw
  else if str_in "wrds_ccm_links" data_type
  then call_external "download_data_wrds_ccm_links" [] kw
  else if str_in "wrds_fisd" data_type
  then call_external "download_data_wrds_fisd" [] kw
  else if str_in "wrds_trace_enhanced" data_type
  then call_download_data_wrds_trace_enhanced [start_date; end_date] kw
                                              trace_data
  else Throw (Raised (ValueError "Unsupported data type.")).

(** Lines 271-326.  The module defines no [download_data_constituents]. *)
Definition download_data (data_set : string)
           (start_date end_date : pyval) (kw : kwargs)
  : pyresult DataFrame :=
  if str_in "factors" data_set
  then download_data_factors data_set start_date end_date kw
  else if str_in "macro_predictors" data_set
  then call_external "download_data_macro_predictors"
                     [PStr data_set; start_date; end_date] kw
  else if str_in "wrds" data_set
  then download_data_wrds data_set start_date end_date kw
  else if str_in "constituents" data_set
  then Throw (NameError "download_data_constituents")
  else if str_in "fred" data_set
  then call_external "download_data_fred" []
                     (("start_date", start_date) :: ("end_date", end_date)
                      :: kw)
  else if str_in "stock_prices" data_set
  then call_external "download_data_stock_prices" []
                     (("start_date", start_date) :: ("end_date", end_date)
                      :: kw)
  else if str_in "osap" data_set
  then call_external "download_data_osap" [start_date; end_date] kw
  else Throw (Raised (ValueError "Unsupported data type.")).
End Downloads.

(* ------------------------------------------------------------------ *)
(** ** [add_lag_columns] (lines 22-77) *)

(** [df[label]]. *)
Definition getitem (label : string) (df : DataFrame) : result Series :=
  match get_column label df with
  | Some s => Ok s
  | None => Raise (KeyError label)
  end.

(** [s.shift(k)] for [k >= 0]: the values move down [k] rows, the first [k]
    rows are missing. *)
Definition shift (k : nat) (s : Series) : Series :=
  firstn (length s) (repeat NA k ++ s).

(** [df.groupby(by)[col].shift(k)]: row [j] gets the value of the [k]-th
    row before it among the rows with its key, or NaN if there is none or
    its key is missing. *)
Definition group_shift (k : nat) (keys vals : Series) : Series :=
  map (fun j =>
         let key := nth j keys NA in
         if isna key then NA
         else nth k (rev (map snd
                            (filter (fun kv => cell_eqb (fst kv) key)
                                    (firstn (S j) (combine keys vals)))))
                  NA)
      (seq 0 (length vals)).

Fixpoint keep_rows (mask : list bool) (s : Series) : Series :=
  match mask, s with
  | b :: mask', c :: s' =>
      if b then c :: keep_rows mask' s' else keep_rows mask' s'
  | _, _ => []
  end.

(** [df.dropna(subset=[label])]. *)
Definition dropna (label : string) (df : DataFrame) : result DataFrame :=
  match get_column label df with
  | None => Raise (KeyError label)
  | Some col =>
      Ok (map (fun ls => (fst ls, keep_rows (map (fun c => negb (isna c)) col)
                                            (snd ls))) df)
  end.

(** [f"{col}_lag_{index_lag}"]. *)
Definition lag_col_name (col : string) (index_lag : nat) : string :=
  (col ++ "_lag_" ++ decimal index_lag)%string.

(** [range(lag, max_lag + 1)]. *)
Definition lag_range (lag max_lag : Z) : list nat :=
  map (fun k => Z.to_nat lag + k)%nat (seq 0 (Z.to_nat (max_lag + 1 - lag))).

(** The body of the inner loop, lines 67-75. *)
Definition add_lag (by_ : option string) (drop_na : bool) (col : string)
           (result_df : DataFrame) (index_lag : nat) : result DataFrame :=
  shifted <-
    match by_ with
    | Some (String c b) =>
        keys <- getitem (String c b) result_df ;;
        vals <- getitem col result_df ;;
        Ok (group_shift index_lag keys vals)
    | _ =>
        vals <- getitem col result_df ;;
        Ok (shift index_lag vals)
    end ;;
  let result_df' := set_column (lag_col_name col index_lag) shifted result_df in
  if drop_na then dropna (lag_col_name col index_lag) result_df'
  else Ok result_df'.

Fixpoint lag_loop (by_ : option string) (drop_na : bool) (col : string)
         (lags : list nat) (result_df : DataFrame) : result DataFrame :=
  match lags with
  | [] => Ok result_df
  | index_lag :: lags' =>
      result_df' <- add_lag by_ drop_na col result_df index_lag ;;
      lag_loop by_ drop_na col lags' result_df'
  end.

(** The outer loop, lines 62-75; [data] is the frame handed in. *)
Fixpoint col_loop (data : DataFrame) (by_ : option string) (drop_na : bool)
         (lags : list nat) (cols : list string) (result_df : DataFrame)
  : result DataFrame :=
  match cols with
  | [] => Ok result_df
  | col :: cols' =>
      if negb (in_list col (columns data))
      then Raise (ValueError ("Column `" ++ col
                              ++ "` not found in the DataFrame."))
      else
        result_df' <- lag_loop by_ drop_na col lags result_df ;;
        col_loop data by_ drop_na lags cols' result_df'
  end.

Definition add_lag_columns (data : DataFrame) (cols : list string)
           (by_ : option string) (lag : Z) (max_lag : option Z)
           (drop_na : bool) (date_col : string) : result DataFrame :=
  if (lag <? 0) || match max_lag with Some m => m <? lag | None => false end
  then Raise (ValueError
                ("`lag` must be non-negative, and `max_lag` must be greater "
                 ++ "than or equal to `lag`."))
  else
    let max_lag' := match max_lag with Some m => m | None => lag end in
    if negb (in_list date_col (columns data))
    then Raise (ValueError ("Date column `" ++ date_col
                            ++ "` not found in DataFrame."))
    else col_loop data by_ drop_na (lag_range lag max_lag') cols data.

(* ------------------------------------------------------------------ *)
(** ** Batches of the daily CRSP download (lines 946-955) *)

(** [l[a:b]] for [0 <= a]. *)
Definition slice {A : Type} (a b : nat) (l : list A) : list A :=
  firstn (b - a) (skipn a l).

(** [np.ceil(n / d).astype(int)], the quotient rounded up. *)
Definition ceil_div (n d : nat) : nat := ((n + d - 1) / d)%nat.

(** The [permno_batch] of each pass [j = 1 .. batches]. *)
Definition permno_batches {A : Type} (batch_size : nat) (permnos : list A)
  : list (list A) :=
  map (fun j => slice ((j - 1) * batch_size)
                      (Nat.min (j * batch_size) (length permnos)) permnos)
      (seq 1 (ceil_div (length permnos) batch_size)).

(* ------------------------------------------------------------------ *)
(** ** [load_wrds_credentials] (lines 1781-1811) *)

(** What [yaml.safe_load] returns. *)
#[warnings="-register-all"]
Inductive yaml : Type :=
| YNull
| YBool (b : bool)
| YInt (n : Z)
| YStr (s : string)
| YList (l : list yaml)
| YMap (m : list (string * yaml)).

(** [bool(v)]. *)
Definition truthy (v : yaml) : bool :=
  match v with
  | YNull => false
  | YBool b => b
  | YInt n => negb (n =? 0)
  | YStr s => negb (s =? "")%string
  | YList l => match l with [] => false | _ => true end
  | YMap m => match m with [] => false | _ => true end
  end.

Fixpoint yaml_lookup (k : string) (m : list (string * yaml)) : option yaml :=
  match m with
  | [] => None
  | (k', v) :: m' => if (k' =? k)%string then Some v else yaml_lookup k m'
  end.

(** [v.get(key, default)]: only mappings have [get]. *)
Definition yaml_get (v : yaml) (key : string) (default : yaml)
  : pyresult yaml :=
  match v with
  | YMap m => Return (match yaml_lookup key m with
                      | Some x => x
                      | None => default
                      end)
  | _ => Throw (AttributeError "object has no attribute 'get'")
  end.

(** [os.getenv] gives a string or [None]. *)
Definition of_env (v : option string) : yaml :=
  match v with Some s => YStr s | None => YNull end.

(** [env_user], [env_password] are what [os.getenv] returns; [config_file]
    is the parsed content of the file at [config_path], if it exists. *)
Definition load_wrds_credentials (env_user env_password : option string)
           (config_file : option yaml) : pyresult (yaml * yaml) :=
  let wrds_user := of_env env_user in
  let wrds_password := of_env env_password in
  let from_file :=
    if negb (truthy wrds_user) || negb (truthy wrds_password) then
      match config_file with
      | Some config =>
          match yaml_get config "WRDS" (YMap []) with
          | Throw e => Throw e
          | Return section =>
              match yaml_get section "USER" (YStr "") with
              | Throw e => Throw e
              | Return u =>
                  match yaml_get config "WRDS" (YMap []) with
                  | Throw e => Throw e
                  | Return section' =>
                      match yaml_get section' "PASSWORD" (YStr "") with
                      | Throw e => Throw e
                      | Return p => Return (u, p)
                      end
                  end
              end
          end
      | None => Return (wrds_user, wrds_password)
      end
    else Return (wrds_user, wrds_password) in
  match from_file with
  | Throw e => Throw e
  | Return (u, p) =>
      if negb (truthy u) || negb (truthy p)
      then Throw (Raised (ValueError
             ("WRDS credentials not found. Please set 'WRDS_USER' "
              ++ "and 'WRDS_PASSWORD' as environment variables or "
              ++ "in config.yaml.")))
      else Return (u, p)
  end.

(* ================================================================== *)
(** * Properties *)

(** ** Additional filters *)




(** ** Frames *)

Lemma get_column_None label df :
  get_column label df = None <-> ~ In label (columns df).
Proof.
  induction df as [|[l s] df IH]; simpl.
  - split; auto.
  - destruct (String.eqb_spec l label) as [E|E].
    + split; [discriminate|]. intros H. exfalso. apply H. now left.
    + rewrite IH. split.
      * intros H [H'|H']; auto.
      * intros H H'. apply H. now right.
Qed.

Lemma get_set_column_same label s df :
  get_column label (set_column label s df) = Some s.
Proof.
  induction df as [|[l s0] df IH]; simpl.
  - now rewrite String.eqb_refl.
  - destruct (String.eqb_spec l label) as [E|E]; simpl.
    + apply String.eqb_eq in E. now rewrite E.
    + apply String.eqb_neq in E. now rewrite E.
Qed.

Lemma get_set_column_other label label' s df :
  label' <> label ->
  get_column label' (set_column label s df) = get_column label' df.
Proof.
  intros Hne. induction df as [|[l s0] df IH]; simpl.
  - destruct (String.eqb_spec label label'); [congruence|reflexivity].
  - destruct (String.eqb_spec l label) as [E|E]; simpl.
    + subst l. destruct (String.eqb_spec label label'); [congruence|].
      reflexivity.
    + destruct (String.eqb_spec l label'); [reflexivity|assumption].
Qed.

Lemma columns_set_column label s s0 df :
  get_column label df = Some s0 ->
  columns (set_column label s df) = columns df.
Proof.
  induction df as [|[l s1] df IH]; simpl; [discriminate|].
  destruct (String.eqb_spec l label) as [E|E]; simpl; intros H.
  - reflexivity.
  - f_equal. now apply IH.
Qed.

(** What a successful call returns: the eight output columns. *)
Lemma process_trace_data_no_rpt_dt df :
  ~ In "trd_rpt_dt" (columns df) ->
  process_trace_data df = (Raise (KeyError "trd_rpt_dt"), df).
Proof.
  intros H. apply get_column_None in H. unfold process_trace_data.
  now rewrite H.
Qed.

(** C10: on a frame with exactly the ten columns the downloader selects,
    [process_trace_data] raises the missing-column error for [trd_rpt_dt]
    (none of the eight further columns it reads is there either), so the
    downloader raises for every list of CUSIPs. *)
Theorem downloaded_columns_raise (trace_data : DataFrame) :
  (forall c, In c (columns trace_data) <-> In c query_columns) ->
  process_trace_data trace_data = (Raise (KeyError "trd_rpt_dt"), trace_data)
  /\ (forall c, In c [ "trd_rpt_dt"; "msg_seq_nb"; "orig_msg_seq_nb";
                       "trd_rpt_tm"; "stlmnt_dt"; "days_to_sttl_ct";
                       "wis_fl"; "spcl_trd_fl" ] ->
                get_column c trace_data = None)
  /\ (forall cusips,
        exists e, download_data_wrds_trace_enhanced cusips trace_data
                  = Raise e).
Proof.
  intros Hcols.
  assert (Hmiss : forall c, In c [ "trd_rpt_dt"; "msg_seq_nb";
                                   "orig_msg_seq_nb"; "trd_rpt_tm";
                                   "stlmnt_dt"; "days_to_sttl_ct";
                                   "wis_fl"; "spcl_trd_fl" ] ->
                            ~ In c (columns trace_data)).
  { intros c Hc Hin. apply Hcols in Hin. unfold query_columns in Hin.
    simpl in Hc, Hin.
    repeat (destruct Hc as [<-|Hc];
            [repeat (destruct Hin as [Hin|Hin]; [discriminate|]);
             contradiction|]).
    contradiction. }
  assert (Hrun : process_trace_data trace_data
                 = (Raise (KeyError "trd_rpt_dt"), trace_data)).
  { apply process_trace_data_no_rpt_dt, Hmiss. simpl. auto. }
  split; [assumption|]. split.
  - intros c Hc. apply get_column_None. now apply Hmiss.
  - intros cusips. unfold download_data_wrds_trace_enhanced.
    destruct (forallb _ cusips); rewrite ?Hrun; eexists; reflexivity.
Qed.

Lemma downloaded_columns_raise_witness :
  process_trace_data downloaded_frame
  = (Raise (KeyError "trd_rpt_dt"), downloaded_frame).
Proof.
  apply (downloaded_columns_raise downloaded_frame).
  intros c. simpl. tauto.
Defined.

(** The assignment of line 1347 is the only write to the caller's frame:
    the call leaves it with the same columns; every column other than
    [trd_rpt_dt] is untouched; [trd_rpt_dt] is either untouched (the call
    raised on line 1347) or replaced by its conversion to timestamps. *)
Theorem input_rpt_dt_overwritten (trace_all : DataFrame) :
  columns (snd (process_trace_data trace_all)) = columns trace_all
  /\ (forall label, label <> "trd_rpt_dt" ->
        get_column label (snd (process_trace_data trace_all))
        = get_column label trace_all)
  /\ (snd (process_trace_data trace_all) = trace_all
      \/ exists rpt_dt rpt_dt',
           get_column "trd_rpt_dt" trace_all = Some rpt_dt
           /\ to_datetime rpt_dt = Ok rpt_dt'
           /\ get_column "trd_rpt_dt" (snd (process_trace_data trace_all))
              = Some rpt_dt').
Proof.
  unfold process_trace_data.
  destruct (get_column "trd_rpt_dt" trace_all) as [rpt_dt|] eqn:Hget; simpl;
    [|auto].
  destruct (to_datetime rpt_dt) as [rpt_dt'|e] eqn:Hconv; simpl; [|auto].
  split; [now apply (columns_set_column _ _ rpt_dt)|]. split.
  - intros label Hne. now apply get_set_column_other.
  - right. exists rpt_dt, rpt_dt'.
    split; [reflexivity|]. split; [assumption|]. apply get_set_column_same.
Qed.

(** C9, on a frame whose report dates are text: after the call the caller's
    frame holds timestamps in [trd_rpt_dt], so it is not the frame that was
    handed in. *)
Lemma input_frame_mutated :
  get_column "trd_rpt_dt" chain_frame
  = Some [Str "2011-01-26"; Str "2011-01-26"; Str "2011-01-26";
          Str "2011-01-26"]
  /\ get_column "trd_rpt_dt" (snd (process_trace_data chain_frame))
     = Some [Ts 15000; Ts 15000; Ts 15000; Ts 15000]
  /\ snd (process_trace_data chain_frame) <> chain_frame.
Proof.
  split; [reflexivity|]. split; [vm_compute; reflexivity|].
  vm_compute. discriminate.
Qed.

(* ================================================================== *)
(** * Column labels *)

Lemma positions_from_length k label ls :
  length (positions_from k label ls) = count_occ string_dec ls label.
Proof.
  revert k. induction ls as [|l ls IH]; intros k; simpl; [reflexivity|].
  destruct (String.eqb_spec l label) as [E|E];
    destruct (string_dec l label) as [E'|E']; try congruence; simpl;
    now rewrite IH.
Qed.

Lemma positions_In label ls : positions label ls <> [] <-> In label ls.
Proof.
  unfold positions. rewrite (count_occ_In string_dec).
  rewrite <- (positions_from_length 0).
  destruct (positions_from 0 label ls); simpl; split; intros H;
    try congruence; lia.
Qed.


Lemma has_one_In label t : has_one label t -> In label (labels t).
Proof.
  unfold has_one. intros H. apply (count_occ_In string_dec). lia.
Qed.

Lemma label_position_one label t :
  has_one label t -> exists p, label_position label t = Ok p.
Proof.
  unfold has_one, label_position, positions. intros H.
  rewrite <- (positions_from_length 0) in H.
  destruct (positions_from 0 label (labels t)) as [|p [|q l]];
    try discriminate.
  now exists p.
Qed.

Lemma label_position_repeated label t :
  (2 <= count_occ string_dec (labels t) label)%nat ->
  label_position label t
  = Raise (ValueError ("The column label '" ++ label ++ "' is not unique.")).
Proof.
  unfold label_position, positions. intros H.
  rewrite <- (positions_from_length 0) in H.
  destruct (positions_from 0 label (labels t)) as [|p [|q l]];
    simpl in H; try lia.
  reflexivity.
Qed.



(** Labels after [rename]. *)
Lemma count_rename_other old new l ls :
  l <> old -> l <> new ->
  count_occ string_dec
            (map (fun x => if (x =? old)%string then new else x) ls) l
  = count_occ string_dec ls l.
Proof.
  intros Ho Hn. induction ls as [|x ls IH]; simpl; [reflexivity|].
  destruct (String.eqb_spec x old) as [E|E].
  - subst x. destruct (string_dec new l), (string_dec old l);
      try congruence; assumption.
  - destruct (string_dec x l); now rewrite IH.
Qed.

Lemma count_rename_new old new ls :
  old <> new ->
  count_occ string_dec
            (map (fun x => if (x =? old)%string then new else x) ls) new
  = (count_occ string_dec ls old + count_occ string_dec ls new)%nat.
Proof.
  intros Hne. induction ls as [|x ls IH]; simpl; [reflexivity|].
  destruct (String.eqb_spec x old) as [E|E].
  - subst x. destruct (string_dec new new), (string_dec old old),
      (string_dec old new); try congruence. rewrite IH. lia.
  - destruct (string_dec x new), (string_dec x old); try congruence;
      rewrite IH; lia.
Qed.




(** A label with a suffix ends in the suffix. *)
Lemma ends_with_app suffix l : ends_with suffix (l ++ suffix) = true.
Proof.
  induction l as [|c l IH]; simpl.
  - destruct suffix; simpl; [reflexivity|].
    now rewrite Ascii.eqb_refl, String.eqb_refl.
  - rewrite IH. apply orb_true_r.
Qed.

Lemma suffix_if_key overlap suffix k :
  ends_with suffix k = false -> in_list k overlap = false ->
  forall l, Pd.suffix_if overlap suffix l = k <-> l = k.
Proof.
  intros He Hk l. unfold Pd.suffix_if. split.
  - destruct (in_list l overlap); [|auto]. intros E.
    rewrite <- E, ends_with_app in He. discriminate.
  - intros ->. now rewrite Hk.
Qed.

Lemma suffix_if_other overlap suffix k l :
  ends_with suffix k = false -> in_list l overlap = true ->
  Pd.suffix_if overlap suffix l <> k.
Proof.
  intros He Hl E. unfold Pd.suffix_if in E. rewrite Hl in E.
  rewrite <- E, ends_with_app in He. discriminate.
Qed.

(* ================================================================== *)
(** * Merge keys *)

Lemma merge_keys_ok on left right :
  (forall k, In k on -> has_one k left /\ has_one k right) ->
  exists ks, Pd.merge_keys on left right = Ok ks.
Proof.
  induction on as [|k on IH]; intros H; simpl; [now eexists|].
  destruct (H k (or_introl eq_refl)) as [Hl Hr].
  apply label_position_one in Hl as [lp ->].
  apply label_position_one in Hr as [rp ->]. simpl.
  destruct IH as [ks ->]; [intros k' Hk'; apply H; now right|].
  simpl. now eexists.
Qed.

(** The first key that two columns of the right frame carry stops the
    merge. *)
Lemma merge_keys_repeated pre k post left right :
  (forall k', In k' pre -> has_one k' left /\ has_one k' right) ->
  (2 <= count_occ string_dec (labels right) k)%nat ->
  Pd.merge_keys (pre ++ k :: post) left right
  = Raise (ValueError ("The column label '" ++ k ++ "' is not unique.")).
Proof.
  intros Hpre Hk. induction pre as [|k' pre IH]; simpl.
  - now rewrite (label_position_repeated k right Hk).
  - destruct (Hpre k' (or_introl eq_refl)) as [Hl Hr].
    apply label_position_one in Hl as [lp ->].
    apply label_position_one in Hr as [rp ->]. simpl.
    rewrite IH; [reflexivity|]. intros x Hx. apply Hpre. now right.
Qed.


Lemma has_one_rename old new k t :
  k <> old -> k <> new -> has_one k t -> has_one k (Pd.rename old new t).
Proof.
  intros Ho Hn H. unfold has_one, Pd.rename. simpl.
  now rewrite count_rename_other.
Qed.

Lemma repeated_rename old new t :
  old <> new -> In old (labels t) -> In new (labels t) ->
  (2 <= count_occ string_dec (labels (Pd.rename old new t)) new)%nat.
Proof.
  intros Hne Ho Hn. unfold Pd.rename. simpl. rewrite count_rename_new by auto.
  apply (count_occ_In string_dec) in Ho, Hn. lia.
Qed.

(* ================================================================== *)
(** * Queries and anti-joins *)

Lemma query_labels name test t t' :
  Pd.query name test t = Ok t' -> labels t' = labels t.
Proof.
  unfold Pd.query. destruct (positions name (labels t)); [discriminate|].
  intros H. now inversion H.
Qed.

Lemma query_defined name test t :
  In name (labels t) -> exists t', Pd.query name test t = Ok t'.
Proof.
  intros H. apply positions_In in H. unfold Pd.query.
  destruct (positions name (labels t)); [congruence|]. now eexists.
Qed.


Lemma in_list_In x l : in_list x l = true <-> In x l.
Proof.
  unfold in_list. rewrite existsb_exists. split.
  - intros (y & Hy & E). apply String.eqb_eq in E. now subst.
  - intros H. exists x. split; [assumption|apply String.eqb_refl].
Qed.

Lemma in_list_false x l : in_list x l = false <-> ~ In x l.
Proof.
  rewrite <- in_list_In. destruct (in_list x l); split; congruence.
Qed.

Lemma left_only_labels on dropped left right t' :
  left_only on dropped left right = Ok t' ->
  labels t' = filter (fun l => negb (in_list l dropped))
                     (merged_labels on left right).
Proof.
  unfold left_only, Pd.merge.
  destruct (Pd.merge_keys on left right) as [ks|e]; [|discriminate]. simpl.
  destruct (in_list "_merge" (labels left) || in_list "_merge" (labels right));
    [discriminate|]. simpl.
  destruct (Pd.query _ _ _) as [q|e] eqn:Hq; [|discriminate]. simpl.
  apply query_labels in Hq. simpl in Hq.
  unfold Pd.drop. destruct (filter _ dropped); [|discriminate].
  intros H. inversion H; subst. simpl. now rewrite Hq.
Qed.

Lemma left_only_defined on dropped left right :
  (forall k, In k on -> has_one k left /\ has_one k right) ->
  ~ In "_merge" (labels left) -> ~ In "_merge" (labels right) ->
  (forall d, In d dropped -> In d (merged_labels on left right)) ->
  exists t', left_only on dropped left right = Ok t'.
Proof.
  intros Hk Hl Hr Hd. unfold left_only, Pd.merge.
  destruct (merge_keys_ok on left right Hk) as [ks ->]. simpl.
  apply in_list_false in Hl, Hr. rewrite Hl, Hr. simpl.
  match goal with |- context [Pd.query ?n ?p ?m] =>
    destruct (query_defined n p m) as [q Hq] end.
  { simpl. rewrite !in_app_iff. right. right. now left. }
  rewrite Hq. simpl. apply query_labels in Hq. simpl in Hq.
  unfold Pd.drop.
  replace (filter (fun l => negb (in_list l (labels q))) dropped) with
    (@nil string); [now eexists|].
  symmetry. rewrite Hq.
  induction dropped as [|d ds IH]; simpl; [reflexivity|].
  assert (Hin : in_list d (merged_labels on left right) = true)
    by (apply in_list_In, Hd; now left).
  unfold merged_labels in Hin. rewrite Hin. simpl.
  apply IH. intros x Hx. apply Hd. now right.
Qed.


(* ================================================================== *)
(** * The correction loop *)

(** Once the active frame has both sequence-number columns, renaming
    [msg_seq_nb] to [orig_msg_seq_nb] gives two columns that label, and the
    merges of lines 1430 and 1439 stop at their third key. *)
Lemma correction_merge_raises (T W : Table) :
  has_one "cusip_id" T -> has_one "cusip_id" W ->
  has_one "trd_exctn_dt" T -> has_one "trd_exctn_dt" W ->
  In "msg_seq_nb" (labels T) -> In "orig_msg_seq_nb" (labels T) ->
  Pd.merge_keys correction_labels W
                (Pd.rename "msg_seq_nb" "orig_msg_seq_nb" T)
  = Raise (ValueError "The column label 'orig_msg_seq_nb' is not unique.").
Proof.
  intros Hc Hc' Hd Hd' Hm Ho.
  apply (merge_keys_repeated ["cusip_id"; "trd_exctn_dt"]
                             "orig_msg_seq_nb" []).
  - intros k [<-|[<-|[]]]; (split; [assumption|]);
      apply has_one_rename; try assumption; discriminate.
  - apply repeated_rename; [discriminate|assumption|assumption].
Qed.

(** When the active frame has no [orig_msg_seq_nb] column the merges go
    through, but the inner merge of line 1430 renames every column that the
    two frames share: [get(trace_pre_W.columns)] on line 1436 then finds a
    label missing and returns [None], and line 1452 calls [rename] on it. *)
Lemma correction_get_none (T W joined : Table) (l : string) :
  Pd.merge how_inner correction_labels false W
           (Pd.rename "msg_seq_nb" "orig_msg_seq_nb" T) = Ok joined ->
  In l (labels W) -> In l (labels T) ->
  ~ In l correction_labels -> l <> "msg_seq_nb" ->
  ends_with "_x" l = false -> ends_with "_y" l = false ->
  Pd.get (labels W) joined = None.
Proof.
  intros Hj HW HT Hkey Hmsg Hx Hy. unfold Pd.merge in Hj.
  destruct (Pd.merge_keys _ _ _) as [ks|e]; [|discriminate].
  cbn [bind andb] in Hj. injection Hj as <-.
  unfold Pd.get. cbn [labels].
  set (rest := filter (fun x => negb (in_list x correction_labels))
                      (labels (Pd.rename "msg_seq_nb" "orig_msg_seq_nb" T))).
  assert (Hrest : In l rest).
  { unfold rest. apply filter_In. split.
    - unfold Pd.rename. cbn [labels]. apply in_map_iff. exists l.
      split; [|assumption].
      destruct (String.eqb_spec l "msg_seq_nb"); [contradiction|reflexivity].
    - now apply negb_true_iff, in_list_false. }
  match goal with |- (if ?b then _ else _) = _ =>
    replace b with false; [reflexivity|] end.
  symmetry. apply not_true_iff_false. intros Hall.
  rewrite forallb_forall in Hall. specialize (Hall l HW).
  apply in_list_In in Hall. rewrite app_nil_r in Hall.
  apply in_app_iff in Hall as [H|H];
    apply in_map_iff in H as (x & E & Hin).
  - assert (E' : Pd.suffix_if rest "_x" x = l) by exact E.
    destruct (in_list x rest) eqn:Ex.
    + exact (suffix_if_other _ _ _ _ Hx Ex E').
    + unfold Pd.suffix_if in E'. rewrite Ex in E'. subst x.
      apply in_list_false in Ex. contradiction.
  - assert (E' : Pd.suffix_if (labels W) "_y" x = l) by exact E.
    destruct (in_list x (labels W)) eqn:Ex.
    + exact (suffix_if_other _ _ _ _ Hy Ex E').
    + unfold Pd.suffix_if in E'. rewrite Ex in E'. subst x.
      apply in_list_false in Ex. contradiction.
Qed.

Lemma loop_body_shared_column (s : loop_state) (l : string) :
  (forall k, In k correction_labels ->
             has_one k (trace_pre_W s)
             /\ has_one k (Pd.rename "msg_seq_nb" "orig_msg_seq_nb"
                                     (trace_pre_T s))) ->
  ~ In "_merge" (labels (trace_pre_W s)) ->
  ~ In "_merge" (labels (trace_pre_T s)) ->
  In l (labels (trace_pre_W s)) -> In l (labels (trace_pre_T s)) ->
  ~ In l correction_labels -> l <> "msg_seq_nb" ->
  ends_with "_x" l = false -> ends_with "_y" l = false ->
  loop_body s = Raise (NoneAttributeError "rename").
Proof.
  intros Hk HmW HmT HW HT Hkey Hmsg Hx Hy. unfold loop_body.
  destruct (merge_keys_ok _ _ _ Hk) as [ks Hks].
  destruct (Pd.merge how_inner correction_labels false (trace_pre_W s) _)
    as [joined|e] eqn:Hj.
  2:{ unfold Pd.merge in Hj. rewrite Hks in Hj. discriminate. }
  cbn [bind].
  rewrite (correction_get_none _ _ _ l Hj) by assumption.
  destruct (left_only_defined correction_labels ["_merge"] (trace_pre_W s)
              (Pd.rename "msg_seq_nb" "orig_msg_seq_nb" (trace_pre_T s)))
    as [W' HW']; try assumption.
  - unfold Pd.rename. cbn [labels]. intros H.
    apply in_map_iff in H as (x & E & Hin).
    destruct (x =? "msg_seq_nb")%string; [discriminate|]. now subst.
  - intros d [<-|[]]. unfold merged_labels. rewrite !in_app_iff.
    right. right. now left.
  - rewrite HW'. reflexivity.
Qed.

(** C1: no pass of the correction loop replaces a row.  Over an active
    frame that has the columns [msg_seq_nb] and [orig_msg_seq_nb], the pass
    raises the [ValueError] of the merge on line 1430.  Over an active frame
    without [orig_msg_seq_nb] that shares a column other than the keys with
    the pending frame, line 1436 yields [None] and the pass raises the
    [AttributeError] of line 1452. *)
Theorem correction_pass_raises :
  (forall s : loop_state,
     has_one "cusip_id" (trace_pre_T s) ->
     has_one "cusip_id" (trace_pre_W s) ->
     has_one "trd_exctn_dt" (trace_pre_T s) ->
     has_one "trd_exctn_dt" (trace_pre_W s) ->
     In "msg_seq_nb" (labels (trace_pre_T s)) ->
     In "orig_msg_seq_nb" (labels (trace_pre_T s)) ->
     loop_body s
     = Raise (ValueError
                "The column label 'orig_msg_seq_nb' is not unique."))
  /\ (forall (s : loop_state) (l : string),
        (forall k, In k correction_labels ->
                   has_one k (trace_pre_W s)
                   /\ has_one k (Pd.rename "msg_seq_nb" "orig_msg_seq_nb"
                                           (trace_pre_T s))) ->
        ~ In "_merge" (labels (trace_pre_W s)) ->
        ~ In "_merge" (labels (trace_pre_T s)) ->
        In l (labels (trace_pre_W s)) -> In l (labels (trace_pre_T s)) ->
        ~ In l correction_labels -> l <> "msg_seq_nb" ->
        ends_with "_x" l = false -> ends_with "_y" l = false ->
        loop_body s = Raise (NoneAttributeError "rename")).
Proof.
  split.
  - intros s Hc Hc' Hd Hd' Hm Ho. unfold loop_body, Pd.merge.
    now rewrite correction_merge_raises.
  - exact loop_body_shared_column.
Qed.

Lemma correction_pass_raises_witness :
  loop_body (loop_init (table_of_messages [chain_T1])
                       (table_of_messages [chain_W1; chain_W2]))
  = Raise (ValueError "The column label 'orig_msg_seq_nb' is not unique.")
  /\ loop_body (loop_init (Pd.rename "orig_msg_seq_nb" "orig_msg_seq_nb_x"
                                     (table_of_messages [chain_T1]))
                          (table_of_messages [chain_W1; chain_W2]))
     = Raise (NoneAttributeError "rename").
Proof.
  split.
  - apply (proj1 correction_pass_raises
                 (loop_init (table_of_messages [chain_T1])
                            (table_of_messages [chain_W1; chain_W2])));
      try reflexivity; simpl; tauto.
  - apply (proj2 correction_pass_raises
                 (loop_init (Pd.rename "orig_msg_seq_nb" "orig_msg_seq_nb_x"
                                       (table_of_messages [chain_T1]))
                            (table_of_messages [chain_W1; chain_W2]))
                 "rptd_pr"); try reflexivity; try discriminate.
    + intros k Hk. simpl in Hk.
      repeat (destruct Hk as [<-|Hk]; [split; reflexivity|]).
      contradiction.
    + simpl. intros H.
      repeat (destruct H as [H|H]; [discriminate|]). contradiction.
    + simpl. intros H.
      repeat (destruct H as [H|H]; [discriminate|]). contradiction.
    + simpl. tauto.
    + simpl. tauto.
    + simpl. intros H.
      repeat (destruct H as [H|H]; [discriminate|]). contradiction.
Defined.

Lemma while_loop_first_pass (T W : Table) (e : exn) :
  rows W <> [] -> loop_body (loop_init T W) = Raise e ->
  correction_loop T W = Some (Raise e).
Proof.
  intros Hne Hbody. unfold correction_loop.
  assert (Hc : correction_control (loop_init T W) = length (rows W))
    by reflexivity.
  destruct (length (rows W)) as [|n] eqn:E.
  { destruct (rows W); [congruence|discriminate]. }
  cbn [while_loop]. rewrite Hc, Hbody. reflexivity.
Qed.

(** Lines 1466-1472: what a completed pass leaves in the two counters. *)
Lemma loop_body_control (s s' : loop_state) :
  loop_body s = Ok s' ->
  correction_control s'
  = (if Nat.eqb (length (rows (trace_pre_W s'))) (correction_control_last s)
     then 0%nat else length (rows (trace_pre_W s')))
  /\ correction_control_last s' = length (rows (trace_pre_W s')).
Proof.
  unfold loop_body. intros H.
  destruct (Pd.merge how_inner _ _ _ _) as [joined|e]; [|discriminate].
  cbn [bind] in H.
  destruct (left_only correction_labels ["_merge"] (trace_pre_W s) _)
    as [W'|e]; [|discriminate].
  cbn [bind] in H.
  destruct (Pd.get (labels (trace_pre_W s)) joined) as [correcting|];
    [|discriminate].
  destruct (left_only _ _ (trace_pre_T s) _) as [T'|e]; [|discriminate].
  cbn [bind] in H. inversion H; subst s'; clear H.
  cbn [trace_pre_W correction_control correction_control_last].
  split; reflexivity.
Qed.


(* ================================================================== *)
(** * Agency trades *)

Lemma agency_clean_raises (A : Type) (trace_clean : Table) :
  exists e, @agency_clean A trace_clean = Raise e.
Proof.
  unfold agency_clean.
  destruct (Pd.query "cntra_mp_id" (is_code "D") trace_clean) as [d|e];
    simpl; [|eauto].
  destruct (Pd.query "rpt_side_cd" (is_code "S") d) as [sells|e];
    simpl; [|eauto].
  destruct (Pd.query "rpt_side_cd" (is_code "B") d) as [buys|e];
    simpl; [|eauto].
  destruct (left_only agency_labels ["_merge"] buys sells) as [kept|e];
    simpl; [|eauto].
  destruct (Pd.query "cntra_mp_id" (is_code "C") trace_clean) as [c|e];
    simpl; [|eauto].
  unfold Pd.pipe_concat. eauto.
Qed.

(** C4: the agency step never yields a frame.  On a frame that has the
    columns the step reads (each merge key once) it gets as far as the call
    of lines 1535-1542 and raises the [TypeError] of [pd.concat]. *)
Theorem agency_step_raises :
  (forall (A : Type) (trace_clean : Table),
     exists e, @agency_clean A trace_clean = Raise e)
  /\ (forall (A : Type) (trace_clean : Table),
        In "cntra_mp_id" (labels trace_clean) ->
        In "rpt_side_cd" (labels trace_clean) ->
        (forall k, In k agency_labels -> has_one k trace_clean) ->
        ~ In "_merge" (labels trace_clean) ->
        @agency_clean A trace_clean
        = Raise (ArgumentTypeError
                   ("concat() takes 1 positional argument but 2 positional "
                    ++ "arguments (and 1 keyword-only argument) were given"))).
Proof.
  split; [exact agency_clean_raises|].
  intros A tc Hc Hs Hk Hm. unfold agency_clean.
  destruct (query_defined "cntra_mp_id" (is_code "D") tc Hc) as [d Hd].
  rewrite Hd. simpl. apply query_labels in Hd as Ld.
  destruct (query_defined "rpt_side_cd" (is_code "S") d) as [sells Hsells];
    [now rewrite Ld|].
  rewrite Hsells. simpl. apply query_labels in Hsells as Lsells.
  destruct (query_defined "rpt_side_cd" (is_code "B") d) as [buys Hbuys];
    [now rewrite Ld|].
  rewrite Hbuys. simpl. apply query_labels in Hbuys as Lbuys.
  destruct (left_only_defined agency_labels ["_merge"] buys sells)
    as [kept Hkept].
  - intros k Hin. unfold has_one. rewrite Lbuys, Lsells, Ld.
    split; now apply Hk.
  - now rewrite Lbuys, Ld.
  - now rewrite Lsells, Ld.
  - intros x [<-|[]]. unfold merged_labels. rewrite !in_app_iff.
    right. right. now left.
  - rewrite Hkept. simpl.
    destruct (query_defined "cntra_mp_id" (is_code "C") tc Hc) as [c Hcq].
    rewrite Hcq. reflexivity.
Qed.

Lemma agency_step_raises_witness :
  @agency_clean Table (table_of_messages [chain_T1; other_T])
  = Raise (ArgumentTypeError
             ("concat() takes 1 positional argument but 2 positional "
              ++ "arguments (and 1 keyword-only argument) were given")).
Proof.
  apply (proj2 agency_step_raises Table
               (table_of_messages [chain_T1; other_T])).
  - simpl. tauto.
  - simpl. tauto.
  - intros k Hk. simpl in Hk.
    repeat (destruct Hk as [<-|Hk]; [reflexivity|]). contradiction.
  - simpl. intros H.
    repeat (destruct H as [H|H]; [discriminate|]). contradiction.
Defined.

(* ================================================================== *)
(** * The call as a whole *)









(* ================================================================== *)
(** * Rows of an anti-join *)

Lemma positions_from_app i label xs ys :
  positions_from i label (xs ++ ys)
  = positions_from i label xs
    ++ positions_from (i + length xs) label ys.
Proof.
  revert i. induction xs as [|x xs IH]; intros i; simpl.
  - now rewrite Nat.add_0_r.
  - rewrite IH. replace (S i + length xs)%nat with (i + S (length xs))%nat
      by lia.
    now destruct (x =? label)%string.
Qed.

Lemma positions_from_absent i label xs :
  ~ In label xs -> positions_from i label xs = [].
Proof.
  revert i. induction xs as [|x xs IH]; intros i H; simpl; [reflexivity|].
  destruct (String.eqb_spec x label) as [E|E].
  - exfalso. apply H. now left.
  - apply IH. intros Hin. apply H. now right.
Qed.

Lemma positions_from_map i (f : string -> string) k ls :
  (forall l, f l = k <-> l = k) ->
  positions_from i k (map f ls) = positions_from i k ls.
Proof.
  intros H. revert i. induction ls as [|x ls IH]; intros i; simpl;
    [reflexivity|].
  rewrite IH.
  destruct (String.eqb_spec (f x) k) as [E|E],
           (String.eqb_spec x k) as [E'|E']; try reflexivity.
  - apply (proj1 (H x)) in E. contradiction.
  - apply (proj2 (H x)) in E'. contradiction.
Qed.

Lemma positions_from_bounds i label ls p :
  In p (positions_from i label ls) -> (i <= p < i + length ls)%nat.
Proof.
  revert i. induction ls as [|x ls IH]; intros i; simpl; [contradiction|].
  destruct (x =? label)%string; simpl.
  - intros [<-|H]; [lia|]. apply IH in H. lia.
  - intros H. apply IH in H. lia.
Qed.

Lemma first_position_lt label ls :
  In label ls -> (first_position label ls < length ls)%nat.
Proof.
  intros H. apply positions_In in H. unfold first_position, positions in *.
  destruct (positions_from 0 label ls) as [|p l] eqn:E; [congruence|].
  assert (Hp : In p (positions_from 0 label ls)) by (rewrite E; now left).
  apply positions_from_bounds in Hp. lia.
Qed.

Lemma label_position_first label t p :
  label_position label t = Ok p -> p = first_position label (labels t).
Proof.
  unfold label_position, first_position.
  destruct (positions label (labels t)) as [|q [|q' l]]; try discriminate.
  intros H. now inversion H.
Qed.

Lemma merge_keys_positions on left right ks :
  Pd.merge_keys on left right = Ok ks ->
  map fst ks = key_positions on left /\ map snd ks = key_positions on right.
Proof.
  revert ks. induction on as [|k on IH]; intros ks; simpl.
  - intros H. inversion H. now split.
  - destruct (label_position k right) as [rp|e] eqn:Er; [|discriminate].
    destruct (label_position k left) as [lp|e] eqn:El; [|discriminate].
    simpl. destruct (Pd.merge_keys on left right) as [ks'|e];
      [|discriminate].
    simpl. intros H. inversion H; subst. simpl.
    destruct (IH ks' eq_refl) as [-> ->].
    apply label_position_first in Er, El. subst. now split.
Qed.

Lemma cell_eqb_eq a b : cell_eqb a b = true <-> a = b.
Proof.
  destruct a, b; simpl; split; intros H; try discriminate; try reflexivity.
  - apply String.eqb_eq in H. now subst.
  - inversion H. apply String.eqb_refl.
  - apply Z.eqb_eq in H. now subst.
  - inversion H. apply Z.eqb_refl.
  - apply Z.eqb_eq in H. now subst.
  - inversion H. apply Z.eqb_refl.
Qed.


(** Two rows agree on the keys of a merge exactly when their cells under
    the key labels are the same. *)
Lemma keys_match_cells ks l r :
  Pd.keys_match ks l r = true <->
  cells_at (map fst ks) l = cells_at (map snd ks) r.
Proof.
  unfold Pd.keys_match, cells_at.
  induction ks as [|[lp rp] ks IH]; simpl; [tauto|].
  rewrite andb_true_iff, IH, cell_eqb_eq. split.
  - intros [H1 H2]. now rewrite H1, H2.
  - intros H. inversion H. now split.
Qed.

Lemma filter_nil_existsb {A : Type} (p : A -> bool) l :
  filter p l = [] <-> existsb p l = false.
Proof.
  induction l as [|x l IH]; simpl; [tauto|].
  destruct (p x); simpl; [split; discriminate|assumption].
Qed.

Lemma select_length_le {A : Type} keep ls (r : list A) :
  (length (select keep ls r) <= length (filter keep ls))%nat.
Proof.
  unfold select. revert r. induction ls as [|l ls IH]; intros [|c r]; simpl;
    try lia.
  specialize (IH r). destruct (keep l); simpl; lia.
Qed.

Lemma select_app {A : Type} keep ls1 ls2 (r1 r2 : list A) :
  length ls1 = length r1 ->
  select keep (ls1 ++ ls2) (r1 ++ r2)
  = select keep ls1 r1 ++ select keep ls2 r2.
Proof.
  unfold select. revert r1. induction ls1 as [|l ls1 IH]; intros [|c r1] H;
    simpl in *; try discriminate; [reflexivity|].
  destruct (keep l); simpl; rewrite IH by lia; reflexivity.
Qed.

Lemma select_all {A : Type} keep ls (r : list A) :
  (forall l, In l ls -> keep l = true) -> length ls = length r ->
  select keep ls r = r.
Proof.
  unfold select. revert r. induction ls as [|l ls IH]; intros [|c r] Hk H;
    simpl in *; try discriminate; [reflexivity|].
  rewrite (Hk l (or_introl eq_refl)). simpl. f_equal.
  apply IH; [|lia]. intros x Hx. apply Hk. now right.
Qed.

Lemma select_none {A : Type} keep ls (r : list A) :
  (forall l, In l ls -> keep l = false) -> select keep ls r = [].
Proof.
  unfold select. revert r. induction ls as [|l ls IH]; intros [|c r] Hk;
    simpl in *; try reflexivity.
  rewrite (Hk l (or_introl eq_refl)). apply IH.
  intros x Hx. apply Hk. now right.
Qed.

Lemma filter_all_true {A : Type} (p : A -> bool) l :
  (forall x, In x l -> p x = true) -> filter p l = l.
Proof.
  intros H. induction l as [|x l IH]; simpl; [reflexivity|].
  rewrite (H x (or_introl eq_refl)). f_equal. apply IH.
  intros y Hy. apply H. now right.
Qed.

(** No label of a merge other than the indicator is called [_merge]. *)
Lemma merged_labels_merge on left right :
  ~ In "_merge" (labels left) -> ~ In "_merge" (labels right) ->
  ~ In "_merge"
       (map (Pd.suffix_if (filter (fun l => negb (in_list l on))
                                  (labels right)) "_x") (labels left)
        ++ map (Pd.suffix_if (labels left) "_y")
               (filter (fun l => negb (in_list l on)) (labels right))).
Proof.
  intros Hl Hr H. apply in_app_iff in H as [H|H];
    apply in_map_iff in H as (l & E & Hin); unfold Pd.suffix_if in E.
  - destruct (in_list l _).
    + assert (Hx : ends_with "_x" "_merge" = true)
        by (rewrite <- E; apply ends_with_app).
      discriminate.
    + now subst.
  - apply filter_In in Hin as [Hin _]. destruct (in_list l _).
    + assert (Hy : ends_with "_y" "_merge" = true)
        by (rewrite <- E; apply ends_with_app).
      discriminate.
    + now subst.
Qed.

Lemma nth_indicator (l pad : list cell) code n k :
  length l = n -> length pad = k ->
  nth (n + k) (l ++ pad ++ [Str code]) NA = Str code.
Proof.
  intros Hl Hp. rewrite app_nth2 by lia. rewrite app_nth2 by lia.
  replace (n + k - length l - length pad)%nat with 0%nat by lia.
  reflexivity.
Qed.

Lemma nth_both (l sel : list cell) n k :
  length l = n -> (length sel <= k)%nat ->
  is_code "left_only" (nth (n + k) (l ++ sel ++ [Str "both"]) NA) = false.
Proof.
  intros Hl Hs. rewrite app_nth2 by lia.
  replace (n + k - length l)%nat with k by lia.
  destruct (Nat.eq_dec (length sel) k) as [E|E].
  - rewrite app_nth2 by lia.
    replace (k - length sel)%nat with 0%nat by lia. reflexivity.
  - rewrite app_nth2 by lia.
    destruct (k - length sel)%nat as [|[|m]] eqn:Ek; [lia| |]; reflexivity.
Qed.

(** The rows a left merge marks [left_only] are the rows of the left frame
    that agree with no row of the right frame on the keys, each followed by
    missing values for the columns of the right frame. *)
Lemma merge_left_unmatched on left right ks :
  Pd.merge_keys on left right = Ok ks ->
  ~ In "_merge" (labels left) -> ~ In "_merge" (labels right) ->
  rectangular left ->
  (merged <- Pd.merge how_left on true left right ;;
   Pd.query "_merge" (is_code "left_only") merged)
  = Ok (mkTable
          (merged_labels on left right)
          (map (fun l =>
                  l ++ repeat NA
                         (length (filter (fun x => negb (in_list x on))
                                         (labels right)))
                    ++ [Str "left_only"])
               (filter (fun l => negb (existsb (Pd.keys_match ks l)
                                               (rows right)))
                       (rows left)))).
Proof.
  intros Hks Hl Hr Hrect. unfold Pd.merge. rewrite Hks. cbn [bind].
  apply in_list_false in Hl as Hl', Hr as Hr'. rewrite Hl', Hr'.
  cbn [andb orb bind]. unfold Pd.query. cbn [labels rows].
  set (rest := filter (fun x => negb (in_list x on)) (labels right)).
  set (A := map (Pd.suffix_if rest "_x") (labels left)).
  set (B := map (Pd.suffix_if (labels left) "_y") rest).
  assert (Hpos : positions "_merge" (A ++ B ++ ["_merge"])
                 = [(length (labels left) + length rest)%nat]).
  { unfold positions. rewrite app_assoc, positions_from_app.
    rewrite positions_from_absent
      by (apply merged_labels_merge; assumption).
    simpl. unfold A, B. now rewrite length_app, !length_map. }
  rewrite Hpos. unfold merged_labels. fold rest A B. f_equal. f_equal.
  unfold rectangular in Hrect.
  induction (rows left) as [|l ls IH]; [reflexivity|].
  inversion Hrect as [|? ? Hlen Hrest]; subst.
  cbn [flat_map filter]. rewrite filter_app, IH by assumption.
  destruct (filter (Pd.keys_match ks l) (rows right)) as [|r rs] eqn:E.
  - apply filter_nil_existsb in E. rewrite E. cbn [negb map filter].
    rewrite nth_indicator;
      [reflexivity|assumption|apply repeat_length].
  - assert (Hex : existsb (Pd.keys_match ks l) (rows right) = true).
    { destruct (existsb _ _) eqn:Hex; [reflexivity|].
      apply filter_nil_existsb in Hex. congruence. }
    rewrite Hex. cbn [negb].
    replace (filter _ (map _ (r :: rs))) with (@nil (list cell));
      [reflexivity|].
    symmetry. generalize (r :: rs). intros l0.
    induction l0 as [|r' l0 IH']; [reflexivity|]. cbn [map filter].
    rewrite nth_both; [assumption|assumption|apply select_length_le].
Qed.

(** ... and [drop(columns=["_merge"])] leaves these rows without their
    mark. *)
Lemma left_only_rows on left right ks :
  Pd.merge_keys on left right = Ok ks ->
  ~ In "_merge" (labels left) -> ~ In "_merge" (labels right) ->
  rectangular left ->
  left_only on ["_merge"] left right
  = Ok (mkTable
          (map (Pd.suffix_if (filter (fun l => negb (in_list l on))
                                     (labels right)) "_x") (labels left)
           ++ map (Pd.suffix_if (labels left) "_y")
                  (filter (fun l => negb (in_list l on)) (labels right)))
          (map (fun l =>
                  l ++ repeat NA
                         (length (filter (fun x => negb (in_list x on))
                                         (labels right))))
               (filter (fun l => negb (existsb (Pd.keys_match ks l)
                                               (rows right)))
                       (rows left)))).
Proof.
  intros Hks Hl Hr Hrect. unfold left_only.
  pose proof (merge_left_unmatched on left right ks Hks Hl Hr Hrect) as H.
  destruct (Pd.merge how_left on true left right) as [m|e];
    [|discriminate]. cbn [bind] in H |- *. rewrite H. cbn [bind].
  unfold Pd.drop, merged_labels. cbn [labels rows].
  set (rest := filter (fun x => negb (in_list x on)) (labels right)).
  set (A := map (Pd.suffix_if rest "_x") (labels left)).
  set (B := map (Pd.suffix_if (labels left) "_y") rest).
  assert (Hno : ~ In "_merge" (A ++ B))
    by (apply merged_labels_merge; assumption).
  assert (Hkeep : forall l, In l (A ++ B) ->
                            negb (in_list l ["_merge"]) = true).
  { intros l Hin. apply negb_true_iff, in_list_false. intros [E|[]].
    now subst. }
  replace (filter (fun l => negb (in_list l (A ++ B ++ ["_merge"])))
                  ["_merge"]) with (@nil string).
  2:{ cbn [filter].
      assert (E : in_list "_merge" (A ++ B ++ ["_merge"]) = true).
      { apply in_list_In. rewrite !in_app_iff. right. right. now left. }
      now rewrite E. }
  f_equal. f_equal.
  - rewrite app_assoc, filter_app, (filter_all_true _ (A ++ B)) by exact Hkeep.
    cbn. apply app_nil_r.
  - rewrite map_map. apply map_ext_in. intros l Hin.
    apply filter_In in Hin as [Hin _].
    unfold rectangular in Hrect. rewrite Forall_forall in Hrect.
    specialize (Hrect l Hin).
    rewrite (app_assoc A B), (app_assoc l).
    rewrite select_app.
    + rewrite select_all; [|exact Hkeep|].
      * rewrite select_none; [apply app_nil_r|]. intros x [<-|[]].
        reflexivity.
      * unfold A, B. rewrite !length_app, !length_map, repeat_length.
        unfold rest. lia.
    + unfold A, B. rewrite !length_app, !length_map, repeat_length.
      unfold rest. lia.
Qed.

(* ================================================================== *)
(** * Cancellations *)

Lemma K_econ_plain k :
  In k K_econ_labels ->
  ends_with "_x" k = false /\ ends_with "_y" k = false /\ k <> "_merge".
Proof.
  intros H. simpl in H.
  repeat (destruct H as [<-|H];
          [repeat split; try reflexivity; discriminate|]).
  contradiction.
Qed.

(** Under a key label, a row that went through the anti-join has the cell
    it had before. *)
Lemma key_cells_left_only on left right rs l pad :
  (forall k, In k on -> has_one k left /\ ends_with "_x" k = false) ->
  length l = length (labels left) ->
  key_cells on
            (mkTable
               (map (Pd.suffix_if (filter (fun x => negb (in_list x on))
                                          (labels right)) "_x")
                    (labels left)
                ++ map (Pd.suffix_if (labels left) "_y")
                       (filter (fun x => negb (in_list x on))
                               (labels right)))
               rs)
            (l ++ pad)
  = key_cells on left l.
Proof.
  intros Hon Hlen. unfold key_cells, key_positions, cells_at.
  rewrite !map_map. apply map_ext_in. intros k Hk. cbn [labels].
  destruct (Hon k Hk) as [Hone Hx].
  assert (Hfirst :
    first_position k
      (map (Pd.suffix_if (filter (fun x => negb (in_list x on))
                                 (labels right)) "_x") (labels left)
       ++ map (Pd.suffix_if (labels left) "_y")
              (filter (fun x => negb (in_list x on)) (labels right)))
    = first_position k (labels left)).
  { unfold first_position, positions. rewrite positions_from_app.
    rewrite positions_from_map.
    2:{ apply suffix_if_key; [assumption|].
        apply in_list_false. rewrite filter_In. intros [_ Hf].
        apply negb_true_iff, in_list_false in Hf. contradiction. }
    apply has_one_In, positions_In in Hone. unfold positions in Hone.
    destruct (positions_from 0 k (labels left)); [congruence|reflexivity]. }
  rewrite Hfirst. apply app_nth1. rewrite Hlen.
  now apply first_position_lt, has_one_In.
Qed.

(** C3: the post-cutover merge of lines 1358-1368 is a complete anti-join
    on K_econ: it keeps exactly the trades and corrections that agree with
    no cancellation on the eight keys.  The merges that stand the
    back-reference in for the sequence number (lines 1379-1384 and
    1405-1409) rename [orig_msg_seq_nb] to [msg_seq_nb] in a frame that has
    both columns, and raise instead of removing anything. *)
Theorem cancellation_merges :
  (forall trace_post_TR trace_post_XC : Table,
     (forall k, In k K_econ_labels ->
                has_one k trace_post_TR /\ has_one k trace_post_XC) ->
     ~ In "_merge" (labels trace_post_TR) ->
     ~ In "_merge" (labels trace_post_XC) ->
     rectangular trace_post_TR ->
     exists kept,
       cancel_post trace_post_TR trace_post_XC = Ok kept
       /\ (forall r c, In r (rows kept) -> In c (rows trace_post_XC) ->
                       key_cells K_econ_labels kept r
                       <> key_cells K_econ_labels trace_post_XC c)
       /\ (forall l, In l (rows trace_post_TR) ->
                     (forall c, In c (rows trace_post_XC) ->
                                key_cells K_econ_labels trace_post_TR l
                                <> key_cells K_econ_labels trace_post_XC c) ->
                     exists r, In r (rows kept)
                               /\ firstn (length l) r = l))
  /\ (forall trades references : Table,
        has_one "cusip_id" trades -> has_one "cusip_id" references ->
        In "msg_seq_nb" (labels references) ->
        In "orig_msg_seq_nb" (labels references) ->
        cancel_by_reference trades references
        = Raise (ValueError "The column label 'msg_seq_nb' is not unique.")).
Proof.
  split.
  - intros TR XC Hk Hl Hr Hrect.
    destruct (merge_keys_ok K_econ_labels TR XC Hk) as [ks Hks].
    pose proof (left_only_rows K_econ_labels TR XC ks Hks Hl Hr Hrect) as E.
    destruct (merge_keys_positions _ _ _ _ Hks) as [Hfst Hsnd].
    assert (Hmatch : forall l c,
              Pd.keys_match ks l c = true <->
              key_cells K_econ_labels TR l = key_cells K_econ_labels XC c).
    { intros l c. rewrite keys_match_cells, Hfst, Hsnd. reflexivity. }
    eexists. split; [exact E|]. cbn [rows]. split.
    + intros r c Hin Hc. apply in_map_iff in Hin as (l & <- & Hin).
      apply filter_In in Hin as [Hin Hno].
      unfold rectangular in Hrect. rewrite Forall_forall in Hrect.
      rewrite key_cells_left_only.
      * intros Heq. apply Hmatch in Heq.
        apply negb_true_iff in Hno.
        assert (Hex : existsb (Pd.keys_match ks l) (rows XC) = true)
          by (apply existsb_exists; eauto).
        congruence.
      * intros k Hin'. split; [now apply Hk|now apply K_econ_plain].
      * now apply Hrect.
    + intros l Hin Hno. exists (l ++ repeat NA
                                  (length (filter
                                             (fun x => negb
                                                (in_list x K_econ_labels))
                                             (labels XC)))).
      split.
      * apply in_map_iff. exists l. split; [reflexivity|].
        apply filter_In. split; [assumption|].
        apply negb_true_iff. apply not_true_iff_false. intros Hex.
        apply existsb_exists in Hex as (c & Hc & Hm).
        apply Hmatch in Hm. now apply (Hno c Hc).
      * rewrite firstn_app, Nat.sub_diag, firstn_all. simpl.
        apply app_nil_r.
  - intros trades references Hc Hc' Hm Ho.
    unfold cancel_by_reference, left_only, Pd.merge.
    rewrite (merge_keys_repeated ["cusip_id"] "msg_seq_nb"
               ["entrd_vol_qt"; "rptd_pr"; "rpt_side_cd"; "cntra_mp_id";
                "trd_exctn_dt"; "trd_exctn_tm"]); [reflexivity| |].
    + intros k [<-|[]]. split; [assumption|].
      apply has_one_rename; try discriminate. assumption.
    + apply repeated_rename; [discriminate|assumption|assumption].
Qed.

Lemma table_of_rectangular df : rectangular (table_of df).
Proof.
  unfold rectangular, table_of. cbn [rows labels]. apply Forall_forall.
  intros r Hr. apply in_map_iff in Hr as (i & <- & _).
  unfold columns. now rewrite !length_map.
Qed.

Lemma cancellation_merges_witness :
  (exists kept,
     cancel_post (table_of_messages [post_T; post_other])
                 (table_of_messages [post_X]) = Ok kept
     /\ (forall r c, In r (rows kept) ->
                     In c (rows (table_of_messages [post_X])) ->
                     key_cells K_econ_labels kept r
                     <> key_cells K_econ_labels
                                  (table_of_messages [post_X]) c)
     /\ map (firstn 4) (rows kept)
        = [[Str "987654321"; Num 1; NA; Num 15400]])
  /\ cancel_by_reference (table_of_messages [chain_T1])
                         (table_of_messages [cancel_of_T1])
     = Raise (ValueError "The column label 'msg_seq_nb' is not unique.").
Proof.
  split.
  - destruct (proj1 cancellation_merges
                    (table_of_messages [post_T; post_other])
                    (table_of_messages [post_X]))
      as (kept & E & Hno & _).
    + intros k Hk. simpl in Hk.
      repeat (destruct Hk as [<-|Hk]; [split; reflexivity|]).
      contradiction.
    + simpl. intros H.
      repeat (destruct H as [H|H]; [discriminate|]). contradiction.
    + simpl. intros H.
      repeat (destruct H as [H|H]; [discriminate|]). contradiction.
    + apply table_of_rectangular.
    + exists kept. split; [exact E|]. split; [exact Hno|].
      vm_compute in E. inversion E. reflexivity.
  - apply (proj2 cancellation_merges); try reflexivity; simpl; tauto.
Defined.

(* ================================================================== *)
(** * Cleaning twice *)




(* ================================================================== *)
(** * Sorting *)

Section SortFacts.
Context {A : Type} (leb : A -> A -> bool).

Lemma insert_sorted_perm x l : Permutation (insert_sorted leb x l) (x :: l).
Proof.
  induction l as [|y l IH]; simpl; [reflexivity|].
  destruct (leb x y); [reflexivity|].
  rewrite IH. apply perm_swap.
Qed.

Lemma sort_values_perm l : Permutation (sort_values leb l) l.
Proof.
  induction l as [|x l IH]; simpl; [reflexivity|].
  rewrite insert_sorted_perm. now apply perm_skip.
Qed.

Lemma sort_values_In x l : In x (sort_values leb l) <-> In x l.
Proof.
  split; apply Permutation_in; [|symmetry]; apply sort_values_perm.
Qed.

Hypothesis leb_total : forall a b, leb a b = false -> leb b a = true.


End SortFacts.





(* ================================================================== *)
(** * Numbering within groups *)

Lemma combine_seq_In {A : Type} (l : list A) (a : nat) (x : A) (s : nat) :
  In (x, s) (combine l (seq a (length l))) <->
  (a <= s)%nat /\ nth_error l (s - a) = Some x.
Proof.
  revert a. induction l as [|y l IH]; intros a; simpl.
  - split; [contradiction|]. intros [_ H]. now destruct (s - a)%nat.
  - rewrite IH. split.
    + intros [H|[Hle Hn]].
      * inversion H; subst. split; [lia|]. now rewrite Nat.sub_diag.
      * split; [lia|]. replace (s - a)%nat with (S (s - S a)) by lia.
        exact Hn.
    + intros [Hle Hn]. destruct (Nat.eq_dec s a) as [->|Hne].
      * left. rewrite Nat.sub_diag in Hn. simpl in Hn. now inversion Hn.
      * right. split; [lia|].
        replace (s - a)%nat with (S (s - S a)) in Hn by lia. exact Hn.
Qed.

Section NumberingFacts.
Context {A K : Type}.
Variable key : A -> K.
Variable key_eqb : K -> K -> bool.
Variable key_leb : K -> K -> bool.
Variable leb : A -> A -> bool.
Hypothesis key_eqb_eq : forall a b, key_eqb a b = true <-> a = b.

Lemma unique_In (l : list K) (x : K) : In x (unique key_eqb l) <-> In x l.
Proof.
  induction l as [|y l IH]; simpl; [reflexivity|].
  destruct (existsb (key_eqb y) l) eqn:E; simpl; rewrite IH.
  - split; [auto|]. intros [<-|H]; [|assumption].
    apply existsb_exists in E as (z & Hz & Hyz).
    apply key_eqb_eq in Hyz. now subst.
  - reflexivity.
Qed.

Lemma group_keys_In df m :
  In m df -> In (key m) (group_keys key key_eqb key_leb df).
Proof.
  intros H. unfold group_keys. apply sort_values_In, unique_In.
  now apply in_map.
Qed.

Lemma group_of_In k df m :
  In m (group_of key key_eqb k df) <-> In m df /\ key m = k.
Proof. unfold group_of. now rewrite filter_In, key_eqb_eq. Qed.

(** The number a row gets is its place, from 1, in its group sorted by
    [leb]. *)
Lemma with_seq_In df m s :
  In (m, s) (with_seq key key_eqb key_leb leb df) <->
  (1 <= s)%nat
  /\ nth_error (sort_values leb (group_of key key_eqb (key m) df)) (s - 1)
     = Some m.
Proof.
  unfold with_seq, groupby. rewrite in_flat_map. split.
  - intros (g & Hg & H). apply in_map_iff in Hg as (k & <- & _).
    unfold assign_seq in H. apply combine_seq_In in H as [Hle Hn].
    assert (Hk : key m = k).
    { apply nth_error_In, sort_values_In, group_of_In in Hn. tauto. }
    now rewrite Hk.
  - intros [Hle Hn]. exists (group_of key key_eqb (key m) df). split.
    + apply in_map_iff. exists (key m). split; [reflexivity|].
      apply nth_error_In, sort_values_In, group_of_In in Hn.
      now apply group_keys_In.
    + unfold assign_seq. now apply combine_seq_In.
Qed.


(** Every row of the frame gets a number. *)
Lemma with_seq_numbered df m :
  In m df -> exists s, In (m, s) (with_seq key key_eqb key_leb leb df).
Proof.
  intros Hin.
  assert (H : In m (sort_values leb (group_of key key_eqb (key m) df))).
  { apply sort_values_In, group_of_In. auto. }
  apply In_nth_error in H as (k & Hk).
  exists (S k). apply with_seq_In. split; [lia|].
  now replace (S k - 1)%nat with k by lia.
Qed.
End NumberingFacts.

(* ================================================================== *)
(** * The reversal step *)






























(* ================================================================== *)
(** * The pass budget of the loop *)

Lemma filter_length_le {A : Type} (p : A -> bool) l :
  (length (filter p l) <= length l)%nat.
Proof.
  induction l as [|x l IH]; simpl; [lia|]. destruct (p x); simpl; lia.
Qed.

(** An anti-join returns no more rows than its left frame has. *)
Lemma left_only_shrinks on left right t' :
  left_only on ["_merge"] left right = Ok t' ->
  rectangular left ->
  rectangular t' /\ (length (rows t') <= length (rows left))%nat.
Proof.
  intros H Hrect.
  destruct (Pd.merge_keys on left right) as [ks|e] eqn:Hks.
  2:{ unfold left_only, Pd.merge in H. rewrite Hks in H. discriminate. }
  destruct (in_list "_merge" (labels left)) eqn:Hl.
  { unfold left_only, Pd.merge in H. rewrite Hks, Hl in H. discriminate. }
  destruct (in_list "_merge" (labels right)) eqn:Hr.
  { unfold left_only, Pd.merge in H. rewrite Hks, Hl, Hr in H.
    discriminate. }
  apply in_list_false in Hl, Hr.
  rewrite (left_only_rows on left right ks Hks Hl Hr Hrect) in H.
  inversion H; subst t'; clear H. cbn [rows labels]. split.
  - unfold rectangular. cbn [rows labels]. apply Forall_forall.
    intros r Hin. apply in_map_iff in Hin as (l & <- & Hin).
    apply filter_In in Hin as [Hin _].
    unfold rectangular in Hrect. rewrite Forall_forall in Hrect.
    rewrite !length_app, !length_map, repeat_length, (Hrect l Hin).
    reflexivity.
  - rewrite length_map. apply filter_length_le.
Qed.

Lemma loop_body_shrinks s s' :
  loop_body s = Ok s' ->
  rectangular (trace_pre_W s) ->
  rectangular (trace_pre_W s')
  /\ (length (rows (trace_pre_W s')) <= length (rows (trace_pre_W s)))%nat
  /\ correction_control_last s' = length (rows (trace_pre_W s'))
  /\ (correction_control s' = 0%nat
      \/ (correction_control s' = length (rows (trace_pre_W s'))
          /\ length (rows (trace_pre_W s')) <> correction_control_last s)).
Proof.
  unfold loop_body. intros H Hrect.
  destruct (Pd.merge how_inner _ _ _ _) as [joined|e]; [|discriminate].
  cbn [bind] in H.
  destruct (left_only correction_labels ["_merge"] (trace_pre_W s) _)
    as [W'|e] eqn:HW; [|discriminate].
  cbn [bind] in H.
  destruct (Pd.get (labels (trace_pre_W s)) joined) as [correcting|];
    [|discriminate].
  destruct (left_only _ _ (trace_pre_T s) _) as [T'|e]; [|discriminate].
  cbn [bind] in H. inversion H; subst s'; clear H.
  cbn [trace_pre_W correction_control correction_control_last].
  destruct (left_only_shrinks _ _ _ _ HW Hrect) as [Hr Hle].
  repeat split; try assumption.
  destruct (Nat.eqb_spec (length (rows W')) (correction_control_last s));
    [now left|right; now split].
Qed.

Lemma while_loop_budget fuel s :
  rectangular (trace_pre_W s) ->
  correction_control_last s = length (rows (trace_pre_W s)) ->
  (correction_control s = 0%nat
   \/ correction_control s = length (rows (trace_pre_W s))) ->
  (correction_control s <= fuel)%nat ->
  while_loop fuel s <> None.
Proof.
  revert s. induction fuel as [|fuel IH]; intros s Hrect Hlast Hctl Hfuel.
  - simpl. replace (correction_control s) with 0%nat by lia. discriminate.
  - simpl. destruct (Nat.eqb_spec (correction_control s) 0) as [E|E];
      [discriminate|].
    destruct (loop_body s) as [s'|e] eqn:Hbody; [|discriminate].
    destruct (loop_body_shrinks s s' Hbody Hrect)
      as (Hrect' & Hle & Hlast' & Hctl').
    apply IH; try assumption.
    + destruct Hctl' as [->|[-> _]]; auto.
    + destruct Hctl' as [->|[-> Hne]]; [lia|].
      rewrite Hlast in Hne. lia.
Qed.

(** The loop never uses up its passes: it ends with a state or with the
    exception of a pass. *)
Lemma correction_loop_budget (T W : Table) :
  rectangular W -> correction_loop T W <> None.
Proof.
  intros Hrect. unfold correction_loop. apply while_loop_budget; auto.
Qed.

Lemma query_rectangular name test t t' :
  Pd.query name test t = Ok t' -> rectangular t -> rectangular t'.
Proof.
  unfold Pd.query. destruct (positions name (labels t)); [discriminate|].
  intros H Hrect. inversion H; subst. unfold rectangular in *.
  cbn [rows labels]. rewrite Forall_forall in *.
  intros r Hr. apply filter_In in Hr as [Hr _]. now apply Hrect.
Qed.

(** C6: the loop ends within as many passes as corrections are pending, and
    a pass that completes leaves no more corrections pending than it found:
    it goes on with fewer, or stops.  With no correction pending the body is
    not entered.  With a correction pending, the first pass over frames of
    trade messages raises (the [ValueError] of line 1430 when the active
    frame has an [orig_msg_seq_nb] column, the [AttributeError] of line 1452
    when it has none and shares another column with the pending frame):
    pending corrections are not discarded, the loop is left by the
    exception. *)
Theorem correction_loop_aborts :
  (forall T W : Table,
     rectangular W -> exists r, correction_loop T W = Some r)
  /\ (forall s s' : loop_state,
        rectangular (trace_pre_W s) ->
        loop_body s = Ok s' ->
        (length (rows (trace_pre_W s')) <= length (rows (trace_pre_W s)))%nat
        /\ correction_control s'
           = (if Nat.eqb (length (rows (trace_pre_W s')))
                         (correction_control_last s)
              then 0%nat else length (rows (trace_pre_W s')))
        /\ correction_control_last s' = length (rows (trace_pre_W s')))
  /\ (forall T W : Table,
        rows W = [] -> correction_loop T W = Some (Ok (loop_init T W)))
  /\ (forall T W : Table,
        has_one "cusip_id" T -> has_one "cusip_id" W ->
        has_one "trd_exctn_dt" T -> has_one "trd_exctn_dt" W ->
        In "msg_seq_nb" (labels T) -> In "orig_msg_seq_nb" (labels T) ->
        rows W <> [] ->
        correction_loop T W
        = Some (Raise (ValueError
                         "The column label 'orig_msg_seq_nb' is not unique.")))
  /\ (forall (T W : Table) (l : string),
        (forall k, In k correction_labels ->
                   has_one k W
                   /\ has_one k (Pd.rename "msg_seq_nb" "orig_msg_seq_nb"
                                           T)) ->
        ~ In "_merge" (labels W) -> ~ In "_merge" (labels T) ->
        In l (labels W) -> In l (labels T) ->
        ~ In l correction_labels -> l <> "msg_seq_nb" ->
        ends_with "_x" l = false -> ends_with "_y" l = false ->
        rows W <> [] ->
        correction_loop T W = Some (Raise (NoneAttributeError "rename"))).
Proof.
  split; [|split; [|split; [|split]]].
  - intros T W Hrect. pose proof (correction_loop_budget T W Hrect) as Hb.
    destruct (correction_loop T W) as [r|]; [eauto|congruence].
  - intros s s' Hrect Hbody.
    destruct (loop_body_shrinks s s' Hbody Hrect) as (_ & Hle & _).
    destruct (loop_body_control s s' Hbody) as [Hctl Hlast]. auto.
  - intros T W E. unfold correction_loop, loop_init. rewrite E. reflexivity.
  - intros T W Hc Hc' Hd Hd' Hm Ho Hne.
    apply while_loop_first_pass; [assumption|].
    unfold loop_body, Pd.merge. cbn [trace_pre_T trace_pre_W loop_init].
    now rewrite correction_merge_raises.
  - intros T W l Hk HmW HmT HW HT Hkey Hmsg Hx Hy Hne.
    apply while_loop_first_pass; [assumption|].
    now apply (loop_body_shared_column (loop_init T W) l).
Qed.

Lemma correction_loop_aborts_witness :
  (exists r, correction_loop (table_of_messages [chain_T1])
                             (table_of_messages [chain_W1; chain_W2]) = Some r)
  /\ (length (rows keys_only_W) <= length (rows keys_only_W))%nat
  /\ correction_loop (table_of_messages [chain_T1])
                     (table_of_messages [orphan_W])
     = Some (Raise (ValueError
                      "The column label 'orig_msg_seq_nb' is not unique."))
  /\ correction_loop (Pd.rename "orig_msg_seq_nb" "orig_msg_seq_nb_x"
                                (table_of_messages [chain_T1]))
                     (table_of_messages [orphan_W])
     = Some (Raise (NoneAttributeError "rename")).
Proof.
  split; [|split; [|split]].
  - apply (proj1 correction_loop_aborts). apply table_of_rectangular.
  - apply (proj1 (proj2 correction_loop_aborts)
                 (loop_init keys_only_T keys_only_W)
                 (mkLoop (Pd.concat keys_only_T
                                    (mkTable (labels keys_only_W) []))
                         keys_only_W 0 1)).
    + repeat constructor.
    + reflexivity.
  - apply (proj1 (proj2 (proj2 (proj2 correction_loop_aborts)))
                 (table_of_messages [chain_T1])
                 (table_of_messages [orphan_W]));
      try reflexivity; try (simpl; tauto). discriminate.
  - apply (proj2 (proj2 (proj2 (proj2 correction_loop_aborts)))
                 (Pd.rename "orig_msg_seq_nb" "orig_msg_seq_nb_x"
                            (table_of_messages [chain_T1]))
                 (table_of_messages [orphan_W]) "rptd_pr");
      try reflexivity; try discriminate.
    + intros k Hk. simpl in Hk.
      repeat (destruct Hk as [<-|Hk]; [split; reflexivity|]).
      contradiction.
    + simpl. intros H.
      repeat (destruct H as [H|H]; [discriminate|]). contradiction.
    + simpl. intros H.
      repeat (destruct H as [H|H]; [discriminate|]). contradiction.
    + simpl. tauto.
    + simpl. tauto.
    + simpl. intros H.
      repeat (destruct H as [H|H]; [discriminate|]). contradiction.
Defined.

(* ================================================================== *)
(** * Column labels after an anti-join *)

(** A label that both frames of a merge carry, and that is no key, is not
    among the labels of the result: it comes back with a suffix. *)
Lemma shared_label_suffixed on left right l :
  In l (labels left) -> In l (labels right) -> ~ In l on ->
  l <> "_merge" -> ends_with "_x" l = false -> ends_with "_y" l = false ->
  ~ In l (merged_labels on left right).
Proof.
  intros Hl Hr Hon Hm Hx Hy. unfold merged_labels.
  set (rest := filter (fun x => negb (in_list x on)) (labels right)).
  assert (Hrest : In l rest).
  { unfold rest. apply filter_In. split; [assumption|].
    now apply negb_true_iff, in_list_false. }
  rewrite !in_app_iff. intros [H|[H|[H|[]]]]; [| |congruence];
    apply in_map_iff in H as (x & E & Hin).
  - destruct (in_list x rest) eqn:Ex.
    + exact (suffix_if_other _ _ _ _ Hx Ex E).
    + unfold Pd.suffix_if in E. rewrite Ex in E. subst x.
      apply in_list_false in Ex. contradiction.
  - destruct (in_list x (labels left)) eqn:Ex.
    + exact (suffix_if_other _ _ _ _ Hy Ex E).
    + unfold Pd.suffix_if in E. rewrite Ex in E. subst x.
      apply in_list_false in Ex. contradiction.
Qed.

(** X3: the frame an anti-join of two frames of trade messages returns has
    no column [asof_cd] any more (the merge hands it back as [asof_cd_x] and
    [asof_cd_y]), so the reversal step applied to such a frame stops at its
    first query, line 1476. *)
Theorem reversal_query_after_merge (on : list string) (left right t : Table) :
  left_only on ["_merge"] left right = Ok t ->
  In "asof_cd" (labels left) -> In "asof_cd" (labels right) ->
  ~ In "asof_cd" on ->
  ~ In "asof_cd" (labels t)
  /\ reversal_step t = Raise (UndefinedVariableError "asof_cd").
Proof.
  intros Hjoin Hl Hr Hon.
  assert (Hno : ~ In "asof_cd" (labels t)).
  { rewrite (left_only_labels _ _ _ _ _ Hjoin). intros H.
    apply filter_In in H as [H _]. revert H.
    apply shared_label_suffixed; try assumption; try reflexivity.
    discriminate. }
  split; [assumption|].
  unfold reversal_step, Pd.query.
  destruct (positions "asof_cd" (labels t)) eqn:E; [reflexivity|].
  exfalso. apply Hno, positions_In. congruence.
Qed.

Lemma reversal_query_after_merge_witness :
  exists t,
    cancel_post (table_of_messages [post_T; post_other])
                (table_of_messages [post_X]) = Ok t
    /\ ~ In "asof_cd" (labels t)
    /\ reversal_step t = Raise (UndefinedVariableError "asof_cd").
Proof.
  eexists. split; [vm_compute; reflexivity|].
  apply (reversal_query_after_merge
           K_econ_labels (table_of_messages [post_T; post_other])
           (table_of_messages [post_X])).
  - vm_compute. reflexivity.
  - simpl. tauto.
  - simpl. tauto.
  - simpl. intros H.
    repeat (destruct H as [H|H]; [discriminate|]). contradiction.
Defined.

(* ================================================================== *)
(** * The download dispatchers *)

Lemma decimal_all_digits n : all_digits (decimal n) = true.
Proof.
  unfold decimal. generalize (Nat.to_uint n) as d.
  induction d; simpl; auto.
Qed.

Lemma digits_no_startswith a sub y :
  is_digit a = false -> all_digits y = true ->
  str_in (String a sub) y = false.
Proof.
  intros Ha. induction y as [|c y IH]; simpl; [reflexivity|].
  intros H. apply andb_prop in H as [Hc Hy].
  rewrite (IH Hy), orb_false_r.
  destruct (Ascii.eqb_spec a c) as [E|E]; [|reflexivity].
  subst. congruence.
Qed.

Lemma q_name_not_factors_q y :
  all_digits y = true ->
  str_in "factors_q" ("q5_factors_daily_" ++ y) = false
  /\ str_in "factors_q" ("q5_factors_weekly_" ++ y) = false
  /\ str_in "factors_q" ("q5_factors_weekly_w2w_" ++ y) = false
  /\ str_in "factors_q" ("q5_factors_monthly_" ++ y) = false
  /\ str_in "factors_q" ("q5_factors_annual_" ++ y) = false.
Proof.
  intros Hy.
  pose proof (digits_no_startswith "f" "actors_q" y eq_refl Hy) as H.
  repeat split; cbn; exact H.
Qed.

Lemma q_name_not_factors_ff name y :
  all_digits y = true ->
  In name [ "q5_factors_daily_" ++ y; "q5_factors_weekly_" ++ y;
            "q5_factors_weekly_w2w_" ++ y; "q5_factors_monthly_" ++ y;
            "q5_factors_quarterly_" ++ y; "q5_factors_annual_" ++ y ]%string ->
  str_in "factors_ff" name = false.
Proof.
  intros Hy Hin.
  pose proof (digits_no_startswith "f" "actors_ff" y eq_refl Hy) as H.
  simpl in Hin.
  repeat (destruct Hin as [<-|Hin]; [cbn; exact H|]). contradiction.
Qed.

Section DownloadFacts.
Variable call_external : string -> list pyval -> kwargs -> pyresult DataFrame.
Variable _validate_dates : pyval -> pyval -> pyresult (pyval * pyval).
Variable ref_year : nat.
Variable trace_data : DataFrame.

(** X6: of the six Global Q files the downloader knows, only the quarterly
    one can be had through [download_data_factors]: the other five names
    raise "Unsupported factor data type.", and a name that is routed to the
    Global Q downloader and yields data is the quarterly name. *)
Theorem global_q_only_quarterly :
  (forall name start_date end_date kw,
     In name (q_data_sets ref_year) ->
     name <> ("q5_factors_quarterly_" ++ decimal ref_year)%string ->
     download_data_factors call_external _validate_dates ref_year
                           name start_date end_date kw
     = Throw (Raised (ValueError "Unsupported factor data type.")))
  /\ (forall data_set start_date end_date kw d,
        str_in "factors_ff" data_set = false ->
        download_data_factors call_external _validate_dates ref_year
                              data_set start_date end_date kw
        = Return d ->
        data_set = ("q5_factors_quarterly_" ++ decimal ref_year)%string).
Proof.
  pose proof (decimal_all_digits ref_year) as Hy.
  destruct (q_name_not_factors_q _ Hy) as (Hd & Hw & Hw2 & Hm & Ha).
  assert (Hother : forall name,
             In name (q_data_sets ref_year) ->
             name <> ("q5_factors_quarterly_" ++ decimal ref_year)%string ->
             str_in "factors_q" name = false).
  { intros name Hin Hne. unfold q_data_sets in Hin. simpl in Hin.
    destruct Hin as [<-|[<-|[<-|[<-|[E|[<-|[]]]]]]];
      [exact Hd|exact Hw|exact Hw2|exact Hm| |exact Ha].
    exfalso. apply Hne. now symmetry. }
  split.
  - intros name start_date end_date kw Hin Hne. unfold download_data_factors.
    rewrite (q_name_not_factors_ff name _ Hy Hin).
    now rewrite (Hother name Hin Hne).
  - intros data_set start_date end_date kw d Hff. unfold download_data_factors.
    rewrite Hff. destruct (str_in "factors_q" data_set) eqn:Hq; [|discriminate].
    unfold download_data_factors_q.
    destruct (_validate_dates start_date end_date) as [[s e]|]; [|discriminate].
    destruct (in_list data_set (q_data_sets ref_year)) eqn:Hin; [|discriminate].
    intros _. apply in_list_In in Hin.
    destruct (String.eqb_spec data_set
                ("q5_factors_quarterly_" ++ decimal ref_year)%string)
      as [E|E]; [assumption|].
    rewrite (Hother data_set Hin E) in Hq. discriminate.
Qed.
End DownloadFacts.

Lemma global_q_only_quarterly_witness :
  download_data_factors (fun _ _ _ => Return []) (fun a b => Return (a, b))
                        2024 "q5_factors_monthly_2024" PNone PNone []
  = Throw (Raised (ValueError "Unsupported factor data type.")).
Proof.
  apply (proj1 (global_q_only_quarterly (fun _ _ _ => Return [])
                  (fun a b => Return (a, b)) 2024)).
  - vm_compute. tauto.
  - vm_compute. discriminate.
Defined.

Lemma check_keywords_TypeError fname params bound kw e :
  check_keywords fname params bound kw = Some e ->
  exists msg, e = TypeError msg.
Proof.
  induction kw as [|[k v] kw IH]; simpl; [discriminate|].
  destruct (negb (in_list k (map fst params)));
    [intros H; inversion H; eauto|].
  destruct (in_list k (map fst bound)); [intros H; inversion H; eauto|].
  exact IH.
Qed.

Lemma check_keywords_rebound fname params bound kw k :
  kw_lookup k kw <> None -> in_list k (map fst bound) = true ->
  check_keywords fname params bound kw <> None.
Proof.
  intros Hk Hb. induction kw as [|[k' v] kw IH]; simpl in *; [congruence|].
  destruct (negb (in_list k' (map fst params))); [discriminate|].
  destruct (String.eqb_spec k' k) as [E|E].
  - subst k'. rewrite Hb. discriminate.
  - destruct (in_list k' (map fst bound)); [discriminate|]. now apply IH.
Qed.

Lemma characters_not_cusips s :
  s <> "" -> forallb is_cusip (characters s) = false.
Proof. destruct s as [|c s]; [congruence|reflexivity]. Qed.

Section TraceDispatch.
Variable call_external : string -> list pyval -> kwargs -> pyresult DataFrame.
Variable _validate_dates : pyval -> pyval -> pyresult (pyval * pyval).
Variable ref_year : nat.
Variable trace_data : DataFrame.

Lemma download_data_trace start_date end_date kw :
  download_data call_external _validate_dates ref_year trace_data
                "wrds_trace_enhanced" start_date end_date kw
  = call_download_data_wrds_trace_enhanced [start_date; end_date] kw
                                           trace_data.
Proof. reflexivity. Qed.

(** X7: [download_data("wrds_trace_enhanced", start_date, end_date,
    **kwargs)] hands [start_date] to the TRACE downloader as its [cusips].
    So with no start date, with a start date that is a non-empty string, or
    with [cusips] passed by keyword, the call raises a [TypeError] or the
    "All CUSIPs must be 9-character strings." [ValueError] and never reaches
    the cleaning step. *)
Theorem trace_download_misbinds_cusips (start_date end_date : pyval)
        (kw : kwargs) :
  start_date = PNone
  \/ (exists s, start_date = PStr s /\ s <> "")
  \/ kw_lookup "cusips" kw <> None ->
  exists e,
    download_data call_external _validate_dates ref_year trace_data
                  "wrds_trace_enhanced" start_date end_date kw
    = Throw e
    /\ ((exists msg, e = TypeError msg)
        \/ e = Raised (ValueError "All CUSIPs must be 9-character strings.")).
Proof.
  intros H. rewrite download_data_trace.
  unfold call_download_data_wrds_trace_enhanced, bind_arguments.
  destruct (check_keywords _ _ _ kw) as [e|] eqn:Hkw.
  - exists e. split; [reflexivity|]. left.
    now apply (check_keywords_TypeError _ _ _ _ _ Hkw).
  - cbn.
    destruct (match kw_lookup "end_date" kw with
              | Some v => Some v
              | None => Some PNone
              end) as [x|] eqn:Ex;
      [|destruct (kw_lookup "end_date" kw); discriminate].
    destruct H as [->|[(s & -> & Hs)|Hc]].
    + eexists. split; [reflexivity|]. left. eauto.
    + cbn. rewrite (characters_not_cusips s Hs).
      eexists. split; [reflexivity|]. now right.
    + exfalso. revert Hkw.
      apply (check_keywords_rebound _ _ _ kw "cusips" Hc). reflexivity.
Qed.
End TraceDispatch.

Lemma trace_download_misbinds_cusips_witness :
  exists e,
    download_data (fun _ _ _ => Return []) (fun a b => Return (a, b)) 2024
                  chain_frame "wrds_trace_enhanced"
                  (PStr "2011-01-01") (PStr "2011-12-31")
                  [("cusips", PList [PStr "123456789"])]
    = Throw e
    /\ ((exists msg, e = TypeError msg)
        \/ e = Raised (ValueError "All CUSIPs must be 9-character strings.")).
Proof.
  apply (trace_download_misbinds_cusips (fun _ _ _ => Return [])
           (fun a b => Return (a, b)) 2024 chain_frame).
  right. left. exists "2011-01-01". split; [reflexivity|discriminate].
Defined.

(* ================================================================== *)
(** * [add_lag_columns] *)

Lemma in_list_columns label df :
  in_list label (columns df) = true <-> get_column label df <> None.
Proof.
  rewrite in_list_In. split.
  - intros H E. now apply get_column_None in E.
  - intros H. destruct (in_dec string_dec label (columns df)) as [i|n];
      [assumption|]. apply get_column_None in n. contradiction.
Qed.

Lemma columns_set_column_incl label s df l :
  In l (columns df) -> In l (columns (set_column label s df)).
Proof.
  induction df as [|[l0 s0] df IH]; simpl; [contradiction|].
  destruct (String.eqb_spec l0 label); simpl; intuition.
Qed.

Lemma columns_keep_rows (f : Series -> Series) (df : DataFrame) :
  columns (map (fun ls => (fst ls, f (snd ls))) df) = columns df.
Proof. unfold columns. rewrite map_map. reflexivity. Qed.

Lemma get_column_map (f : Series -> Series) (df : DataFrame) label :
  get_column label (map (fun ls => (fst ls, f (snd ls))) df)
  = option_map f (get_column label df).
Proof.
  induction df as [|[l s] df IH]; simpl; [reflexivity|].
  destruct (l =? label)%string; [reflexivity|exact IH].
Qed.

Lemma decimal_inj n m : decimal n = decimal m -> n = m.
Proof.
  unfold decimal. intros H.
  assert (E : Some (Nat.to_uint n) = Some (Nat.to_uint m)).
  { rewrite <- !NilEmpty.usu. now rewrite H. }
  inversion E as [E']. apply (f_equal Nat.of_uint) in E'.
  now rewrite !Unsigned.of_to in E'.
Qed.

Lemma string_app_inv_head (p s t : string) :
  (p ++ s)%string = (p ++ t)%string -> s = t.
Proof. induction p; simpl; intros H; [assumption|]. inversion H. auto. Qed.

Lemma lag_col_name_inj col i j :
  lag_col_name col i = lag_col_name col j -> i = j.
Proof.
  unfold lag_col_name. intros H.
  apply string_app_inv_head, string_app_inv_head in H.
  now apply decimal_inj.
Qed.

Lemma string_app_length (p s : string) :
  String.length (p ++ s)%string = (String.length p + String.length s)%nat.
Proof. induction p; simpl; auto. Qed.

Lemma lag_col_name_fresh col i : lag_col_name col i <> col.
Proof.
  unfold lag_col_name. intros H. apply (f_equal String.length) in H.
  rewrite !string_app_length in H. simpl in H. lia.
Qed.

Lemma lag_range_NoDup lag max_lag : NoDup (lag_range lag max_lag).
Proof.
  unfold lag_range.
  apply Finite.Injective_map_NoDup; [|apply seq_NoDup].
  intros x y H. lia.
Qed.

(** *** Without grouping *)

Lemma add_lag_plain_ok drop_na col res i :
  In col (columns res) ->
  exists r, add_lag None drop_na col res i = Ok r
            /\ columns r = columns (set_column (lag_col_name col i)
                                               [] res).
Proof.
  intros Hin. unfold add_lag, getitem.
  destruct (get_column col res) as [s|] eqn:E;
    [|apply get_column_None in E; contradiction].
  cbn [bind]. destruct drop_na.
  - unfold dropna. rewrite get_set_column_same. eexists.
    split; [reflexivity|]. rewrite columns_keep_rows.
    clear. induction res as [|[l s0] res IH]; simpl; [reflexivity|].
    destruct (l =? lag_col_name col i)%string; simpl; [reflexivity|].
    f_equal. exact IH.
  - eexists. split; [reflexivity|].
    clear. induction res as [|[l s0] res IH]; simpl; [reflexivity|].
    destruct (l =? lag_col_name col i)%string; simpl; [reflexivity|].
    f_equal. exact IH.
Qed.

Lemma lag_loop_plain_ok drop_na col lags : forall res,
  In col (columns res) ->
  exists r, lag_loop None drop_na col lags res = Ok r
            /\ forall l, In l (columns res) -> In l (columns r).
Proof.
  induction lags as [|i lags IH]; intros res Hin; simpl.
  - eauto.
  - destruct (add_lag_plain_ok drop_na col res i Hin) as (r1 & -> & Hc).
    cbn [bind].
    assert (Hsub : forall l, In l (columns res) -> In l (columns r1)).
    { intros l Hl. rewrite Hc. now apply columns_set_column_incl. }
    destruct (IH r1 (Hsub col Hin)) as (r & -> & Hr).
    exists r. split; [reflexivity|]. auto.
Qed.

Lemma col_loop_plain data drop_na lags cols : forall res,
  (forall l, In l (columns data) -> In l (columns res)) ->
  (forallb (fun c => in_list c (columns data)) cols = true ->
   exists r, col_loop data None drop_na lags cols res = Ok r)
  /\ (forallb (fun c => in_list c (columns data)) cols = false ->
      exists msg, col_loop data None drop_na lags cols res
                  = Raise (ValueError msg)).
Proof.
  induction cols as [|c cols IH]; intros res Hsub; simpl.
  - split; [eauto|discriminate].
  - destruct (in_list c (columns data)) eqn:Hc; simpl.
    + apply in_list_In in Hc.
      destruct (lag_loop_plain_ok drop_na c lags res (Hsub c Hc))
        as (r1 & -> & Hr1).
      cbn [bind]. apply IH. auto.
    + split; [discriminate|]. eauto.
Qed.

(** X8: without grouping, [add_lag_columns] returns a frame exactly when
    [lag] is non-negative, [max_lag] (if given) is at least [lag], the date
    column exists and every column to lag exists; otherwise it raises a
    [ValueError]. *)
Theorem add_lag_columns_validation
        (data : DataFrame) (cols : list string) (lag : Z)
        (max_lag : option Z) (drop_na : bool) (date_col : string) :
  (0 <= lag /\ (forall m, max_lag = Some m -> lag <= m)
   /\ In date_col (columns data)
   /\ (forall c, In c cols -> In c (columns data)) ->
   exists r, add_lag_columns data cols None lag max_lag drop_na date_col
             = Ok r)
  /\ (~ (0 <= lag /\ (forall m, max_lag = Some m -> lag <= m)
         /\ In date_col (columns data)
         /\ (forall c, In c cols -> In c (columns data))) ->
      exists msg, add_lag_columns data cols None lag max_lag drop_na date_col
                  = Raise (ValueError msg)).
Proof.
  unfold add_lag_columns.
  destruct (Z.ltb_spec lag 0) as [Hl|Hl]; simpl.
  { split; [intros (H & _); lia|eauto]. }
  destruct max_lag as [m|].
  - destruct (Z.ltb_spec m lag) as [Hm|Hm].
    { split; [|eauto]. intros (_ & H & _). specialize (H m eq_refl). lia. }
    destruct (in_list date_col (columns data)) eqn:Hd; simpl.
    + apply in_list_In in Hd.
      destruct (col_loop_plain data drop_na (lag_range lag m) cols data
                  (fun l H => H)) as [Hok Herr].
      destruct (forallb (fun c => in_list c (columns data)) cols) eqn:Hc.
      * split; [intros _; now apply Hok|]. intros Hn. exfalso. apply Hn.
        repeat split; auto.
        -- intros m' E. inversion E. lia.
        -- intros c Hin. rewrite forallb_forall in Hc.
           now apply in_list_In, Hc.
      * split; [|intros _; now apply Herr]. intros (_ & _ & _ & Hall).
        exfalso. apply not_true_iff_false in Hc. apply Hc.
        apply forallb_forall. intros c Hin. now apply in_list_In, Hall.
    + split; [|eauto]. intros (_ & _ & H & _). apply in_list_In in H.
      congruence.
  - destruct (in_list date_col (columns data)) eqn:Hd; simpl.
    + apply in_list_In in Hd.
      destruct (col_loop_plain data drop_na (lag_range lag lag) cols data
                  (fun l H => H)) as [Hok Herr].
      destruct (forallb (fun c => in_list c (columns data)) cols) eqn:Hc.
      * split; [intros _; now apply Hok|]. intros Hn. exfalso. apply Hn.
        repeat split; auto.
        -- intros m' E. discriminate.
        -- intros c Hin. rewrite forallb_forall in Hc.
           now apply in_list_In, Hc.
      * split; [|intros _; now apply Herr]. intros (_ & _ & _ & Hall).
        exfalso. apply not_true_iff_false in Hc. apply Hc.
        apply forallb_forall. intros c Hin. now apply in_list_In, Hall.
    + split; [|eauto]. intros (_ & _ & H & _). apply in_list_In in H.
      congruence.
Qed.

(** *** Shifted values *)

Lemma shift_length k s : length (shift k s) = length s.
Proof.
  unfold shift. rewrite length_firstn, length_app, repeat_length. lia.
Qed.

Lemma shift_nth k s j :
  (j < length s)%nat ->
  nth j (shift k s) NA = if Nat.ltb j k then NA else nth (j - k) s NA.
Proof.
  intros Hj. unfold shift. rewrite nth_firstn.
  destruct (Nat.ltb_spec j (length s)) as [_|H]; [|lia].
  destruct (Nat.ltb_spec j k) as [Hk|Hk].
  - rewrite app_nth1 by (rewrite repeat_length; lia). apply nth_repeat.
  - rewrite app_nth2 by (rewrite repeat_length; lia).
    now rewrite repeat_length.
Qed.

Lemma add_lag_plain_eq col res i s :
  get_column col res = Some s ->
  add_lag None false col res i
  = Ok (set_column (lag_col_name col i) (shift i s) res).
Proof. intros H. unfold add_lag, getitem. now rewrite H. Qed.

Lemma lag_loop_plain_values col lags : forall res r s,
  get_column col res = Some s ->
  NoDup lags ->
  lag_loop None false col lags res = Ok r ->
  get_column col r = Some s
  /\ (forall i, In i lags ->
                get_column (lag_col_name col i) r = Some (shift i s))
  /\ (forall l, (forall i, In i lags -> l <> lag_col_name col i) ->
                get_column l r = get_column l res).
Proof.
  induction lags as [|i lags IH]; intros res r s Hs Hnd Hrun; simpl in Hrun.
  - inversion Hrun; subst. repeat split; auto. intros i [].
  - rewrite (add_lag_plain_eq col res i s Hs) in Hrun. cbn [bind] in Hrun.
    inversion Hnd as [|? ? Hni Hnd']; subst.
    assert (Hs1 : get_column col
                    (set_column (lag_col_name col i) (shift i s) res)
                  = Some s).
    { rewrite get_set_column_other; [assumption|].
      intros E. symmetry in E. now apply lag_col_name_fresh in E. }
    destruct (IH _ r s Hs1 Hnd' Hrun) as (Hc & Hv & Ho).
    split; [assumption|]. split.
    + intros j [<-|Hj]; [|now apply Hv].
      rewrite Ho; [apply get_set_column_same|].
      intros j Hj E. apply lag_col_name_inj in E. now subst.
    + intros l Hl. rewrite Ho by (intros j Hj; apply Hl; now right).
      apply get_set_column_other. apply Hl. now left.
Qed.

Lemma lag_range_In lag max_lag i :
  0 <= lag ->
  (In i (lag_range lag max_lag) <-> lag <= Z.of_nat i <= max_lag).
Proof.
  intros Hl. unfold lag_range. rewrite in_map_iff. split.
  - intros (k & <- & Hk). apply in_seq in Hk. lia.
  - intros H. exists (i - Z.to_nat lag)%nat. split; [lia|].
    apply in_seq. lia.
Qed.

(** X9: for one column and no grouping or dropping, the lag column
    [col_lag_i] holds, for every [i] from [lag] to [max_lag], the column
    itself moved down by [i] rows: row [j] is missing for [j < i] and is
    row [j - i] of the column otherwise.  Rows are lagged by position; the
    date column is only checked for presence. *)
Theorem add_lag_columns_positional
        (data : DataFrame) (col : string) (lag : Z) (max_lag : option Z)
        (date_col : string) (s : Series) (r : DataFrame) (i : nat) :
  get_column col data = Some s ->
  add_lag_columns data [col] None lag max_lag false date_col = Ok r ->
  lag <= Z.of_nat i <= match max_lag with Some m => m | None => lag end ->
  get_column col r = Some s
  /\ exists lagged,
       get_column (lag_col_name col i) r = Some lagged
       /\ length lagged = length s
       /\ forall j, (j < length s)%nat ->
                    nth j lagged NA
                    = if Nat.ltb j i then NA else nth (j - i) s NA.
Proof.
  intros Hs Hrun Hi. unfold add_lag_columns in Hrun.
  destruct (Z.ltb_spec lag 0) as [Hl|Hl]; simpl in Hrun; [discriminate|].
  destruct (match max_lag with Some m => m <? lag | None => false end);
    [discriminate|].
  destruct (negb (in_list date_col (columns data))); [discriminate|].
  simpl in Hrun.
  destruct (negb (in_list col (columns data))); [discriminate|].
  destruct (lag_loop None false col _ data) as [r1|e] eqn:Hloop;
    cbn [bind] in Hrun; [|discriminate].
  inversion Hrun; subst r1.
  destruct (lag_loop_plain_values col _ data r s Hs
              (lag_range_NoDup _ _) Hloop) as (Hc & Hv & _).
  split; [assumption|]. exists (shift i s). split.
  - apply Hv. now apply lag_range_In.
  - split; [apply shift_length|]. intros j Hj. now apply shift_nth.
Qed.

Lemma add_lag_columns_positional_witness :
  get_column "x" [("date", [Num 1; Num 2; Num 3]);
                  ("x", [Num 10; Num 20; Num 30]);
                  ("x_lag_1", [NA; Num 10; Num 20]);
                  ("x_lag_2", [NA; NA; Num 10])]
  = Some [Num 10; Num 20; Num 30]
  /\ exists lagged,
       get_column (lag_col_name "x" 2)
                  [("date", [Num 1; Num 2; Num 3]);
                   ("x", [Num 10; Num 20; Num 30]);
                   ("x_lag_1", [NA; Num 10; Num 20]);
                   ("x_lag_2", [NA; NA; Num 10])] = Some lagged
       /\ length lagged = length [Num 10; Num 20; Num 30]
       /\ forall j, (j < length [Num 10; Num 20; Num 30])%nat ->
                    nth j lagged NA
                    = if Nat.ltb j 2 then NA
                      else nth (j - 2) [Num 10; Num 20; Num 30] NA.
Proof.
  apply (add_lag_columns_positional
           [("date", [Num 1; Num 2; Num 3]); ("x", [Num 10; Num 20; Num 30])]
           "x" 1 (Some 2) "date").
  - reflexivity.
  - vm_compute. reflexivity.
  - simpl. lia.
Defined.

(** *** What the loops keep *)

Lemma add_lag_plain_inv col res i r :
  add_lag None false col res i = Ok r ->
  exists s, get_column col res = Some s
            /\ r = set_column (lag_col_name col i) (shift i s) res.
Proof.
  unfold add_lag, getitem. destruct (get_column col res) as [s|];
    cbn [bind]; [|discriminate].
  intros H. inversion H. eauto.
Qed.

Lemma lag_loop_plain_frame col lags : forall res r,
  lag_loop None false col lags res = Ok r ->
  (forall l, In l (columns res) -> In l (columns r))
  /\ (forall n, (forall l s, get_column l res = Some s -> length s = n) ->
                forall l s, get_column l r = Some s -> length s = n)
  /\ (forall l, (forall i, l <> lag_col_name col i) ->
                get_column l r = get_column l res).
Proof.
  induction lags as [|i lags IH]; intros res r Hrun; simpl in Hrun.
  - inversion Hrun; subst. auto.
  - destruct (add_lag None false col res i) as [r1|e] eqn:E;
      cbn [bind] in Hrun; [|discriminate].
    apply add_lag_plain_inv in E as (s & Hs & ->).
    destruct (IH _ r Hrun) as (Hc & Hn & Ho). split; [|split].
    + intros l Hl. apply Hc. now apply columns_set_column_incl.
    + intros n Hall. apply Hn. intros l s' Hl.
      destruct (String.eqb_spec l (lag_col_name col i)) as [->|Hne].
      * rewrite get_set_column_same in Hl. inversion Hl; subst.
        rewrite shift_length. now apply (Hall col).
      * rewrite get_set_column_other in Hl by assumption.
        now apply (Hall l).
    + intros l Hl. rewrite (Ho l Hl). now apply get_set_column_other.
Qed.

Lemma col_loop_plain_frame data lags cols : forall res r,
  col_loop data None false lags cols res = Ok r ->
  (forall l, In l (columns res) -> In l (columns r))
  /\ (forall n, (forall l s, get_column l res = Some s -> length s = n) ->
                forall l s, get_column l r = Some s -> length s = n)
  /\ (forall l, (forall c i, In c cols -> l <> lag_col_name c i) ->
                get_column l r = get_column l res).
Proof.
  induction cols as [|c cols IH]; intros res r Hrun; simpl in Hrun.
  - inversion Hrun; subst. auto.
  - destruct (negb (in_list c (columns data))); [discriminate|].
    destruct (lag_loop None false c lags res) as [r1|e] eqn:E;
      cbn [bind] in Hrun; [|discriminate].
    destruct (lag_loop_plain_frame c lags res r1 E) as (Hc1 & Hn1 & Ho1).
    destruct (IH r1 r Hrun) as (Hc & Hn & Ho). split; [|split].
    + auto.
    + intros n Hall. apply Hn. now apply Hn1.
    + intros l Hl. rewrite Ho by (intros c' i Hc'; apply Hl; now right).
      apply Ho1. intros i. apply Hl. now left.
Qed.

(** X10: without grouping or dropping, the returned frame has every column
    of the input, every column of it has the input's number of rows, and
    every column that is not named like a lag of a listed column is the
    input's. *)
Theorem add_lag_columns_keeps_frame
        (data : DataFrame) (cols : list string) (lag : Z)
        (max_lag : option Z) (date_col : string) (r : DataFrame) :
  add_lag_columns data cols None lag max_lag false date_col = Ok r ->
  (forall l, In l (columns data) -> In l (columns r))
  /\ (forall n, (forall l s, get_column l data = Some s -> length s = n) ->
                forall l s, get_column l r = Some s -> length s = n)
  /\ (forall l, (forall c i, In c cols -> l <> lag_col_name c i) ->
                get_column l r = get_column l data).
Proof.
  unfold add_lag_columns.
  destruct ((lag <? 0) || _); [discriminate|].
  destruct (negb (in_list date_col (columns data))); [discriminate|].
  apply col_loop_plain_frame.
Qed.

Lemma add_lag_columns_keeps_frame_witness :
  add_lag_columns [("date", [Num 1; Num 2; Num 3]);
                   ("x", [Num 10; Num 20; Num 30])]
                  ["x"] None 1 (Some 2) false "date"
  = Ok [("date", [Num 1; Num 2; Num 3]);
        ("x", [Num 10; Num 20; Num 30]);
        ("x_lag_1", [NA; Num 10; Num 20]);
        ("x_lag_2", [NA; NA; Num 10])]
  /\ In "x" (columns [("date", [Num 1; Num 2; Num 3]);
                      ("x", [Num 10; Num 20; Num 30]);
                      ("x_lag_1", [NA; Num 10; Num 20]);
                      ("x_lag_2", [NA; NA; Num 10])]).
Proof.
  split; [vm_compute; reflexivity|].
  apply (add_lag_columns_keeps_frame
           [("date", [Num 1; Num 2; Num 3]); ("x", [Num 10; Num 20; Num 30])]
           ["x"] 1 (Some 2) "date").
  - vm_compute. reflexivity.
  - simpl. tauto.
Defined.

(** *** Dropping missing lags *)

Lemma keep_rows_Forall (P : cell -> Prop) mask s :
  Forall P s -> Forall P (keep_rows mask s).
Proof.
  revert mask. induction s as [|c s IH]; intros [|b mask] H; simpl;
    try constructor.
  inversion H; subst. destruct b; [constructor|]; auto.
Qed.

Lemma keep_rows_notna s :
  Forall (fun c => c <> NA) (keep_rows (map (fun c => negb (isna c)) s) s).
Proof.
  induction s as [|c s IH]; simpl; [constructor|].
  destruct c; simpl; try (constructor; [discriminate|]); exact IH.
Qed.

Lemma add_lag_drop_na by_ col res i r :
  add_lag by_ true col res i = Ok r ->
  (exists s, get_column (lag_col_name col i) r = Some s
             /\ Forall (fun c => c <> NA) s)
  /\ (forall w s, get_column w res = Some s -> Forall (fun c => c <> NA) s ->
                  exists s', get_column w r = Some s'
                             /\ Forall (fun c => c <> NA) s').
Proof.
  unfold add_lag.
  destruct (match by_ with
            | Some (String c b) =>
                keys <- getitem (String c b) res ;;
                vals <- getitem col res ;;
                Ok (group_shift i keys vals)
            | _ => vals <- getitem col res ;; Ok (shift i vals)
            end) as [shifted|e]; cbn [bind]; [|discriminate].
  unfold dropna. rewrite get_set_column_same. intros H. inversion H; subst.
  clear H.
  assert (Hname : exists s,
             get_column (lag_col_name col i)
               (map (fun ls => (fst ls,
                                keep_rows (map (fun c => negb (isna c))
                                               shifted) (snd ls)))
                    (set_column (lag_col_name col i) shifted res)) = Some s
             /\ Forall (fun c => c <> NA) s).
  { rewrite get_column_map, get_set_column_same. simpl. eexists.
    split; [reflexivity|apply keep_rows_notna]. }
  split; [exact Hname|]. intros w s Hw Hs.
  destruct (String.eqb_spec w (lag_col_name col i)) as [->|Hne];
    [exact Hname|].
  rewrite get_column_map, get_set_column_other, Hw by assumption. simpl.
  eexists. split; [reflexivity|now apply keep_rows_Forall].
Qed.

Lemma lag_loop_drop_na by_ col lags : forall res r (W : list string),
  (forall w, In w W -> exists s, get_column w res = Some s
                                 /\ Forall (fun c => c <> NA) s) ->
  lag_loop by_ true col lags res = Ok r ->
  forall w, In w (map (lag_col_name col) lags ++ W) ->
            exists s, get_column w r = Some s
                      /\ Forall (fun c => c <> NA) s.
Proof.
  induction lags as [|i lags IH]; intros res r W HW Hrun; simpl in Hrun.
  - inversion Hrun; subst. exact HW.
  - destruct (add_lag by_ true col res i) as [r1|e] eqn:E;
      cbn [bind] in Hrun; [|discriminate].
    destruct (add_lag_drop_na _ _ _ _ _ E) as (Hn & Hk).
    intros w Hw. simpl in Hw.
    apply (IH r1 r (lag_col_name col i :: W)); [|assumption|].
    + intros w' [<-|Hw']; [exact Hn|].
      destruct (HW w' Hw') as (s & Hs & Hna). now apply (Hk w' s).
    + apply in_or_app. destruct Hw as [<-|Hw]; [right; now left|].
      apply in_app_or in Hw as [Hw|Hw]; [now left|right; now right].
Qed.

Lemma col_loop_drop_na data by_ lags cols : forall res r (W : list string),
  (forall w, In w W -> exists s, get_column w res = Some s
                                 /\ Forall (fun c => c <> NA) s) ->
  col_loop data by_ true lags cols res = Ok r ->
  forall w, In w (flat_map (fun c => map (lag_col_name c) lags) cols ++ W) ->
            exists s, get_column w r = Some s
                      /\ Forall (fun c => c <> NA) s.
Proof.
  induction cols as [|c0 cols IH]; intros res r W HW Hrun; simpl in Hrun.
  - inversion Hrun; subst. exact HW.
  - destruct (negb (in_list c0 (columns data))); [discriminate|].
    destruct (lag_loop by_ true c0 lags res) as [r1|e] eqn:E;
      cbn [bind] in Hrun; [|discriminate].
    pose proof (lag_loop_drop_na by_ c0 lags res r1 W HW E) as H1.
    intros w Hw. apply (IH r1 r _ H1 Hrun).
    simpl in Hw. rewrite !in_app_iff in Hw |- *. tauto.
Qed.

(** X11: with [drop_na=True], whatever the grouping, every lag column of
    the returned frame is free of missing values. *)
Theorem add_lag_columns_drop_na
        (data : DataFrame) (cols : list string) (by_ : option string)
        (lag : Z) (max_lag : option Z) (date_col : string) (r : DataFrame)
        (c : string) (i : nat) :
  add_lag_columns data cols by_ lag max_lag true date_col = Ok r ->
  In c cols ->
  lag <= Z.of_nat i <= match max_lag with Some m => m | None => lag end ->
  exists s, get_column (lag_col_name c i) r = Some s
            /\ Forall (fun x => x <> NA) s.
Proof.
  unfold add_lag_columns.
  destruct (Z.ltb_spec lag 0) as [Hl|Hl]; simpl; [discriminate|].
  destruct (match max_lag with Some m => m <? lag | None => false end);
    [discriminate|].
  destruct (negb (in_list date_col (columns data))); [discriminate|].
  intros Hrun Hc Hi.
  apply (col_loop_drop_na data by_ _ cols data r [] (fun w (H : In w []) =>
                                                       match H with end)
                          Hrun).
  rewrite app_nil_r. apply in_flat_map. exists c. split; [assumption|].
  apply in_map. now apply lag_range_In.
Qed.

Lemma add_lag_columns_drop_na_witness :
  exists s,
    get_column (lag_col_name "x" 1)
               [("date", [Num 3; Num 4]); ("g", [Str "a"; Str "a"]);
                ("x", [Num 30; Num 40]); ("x_lag_1", [Num 10; Num 30])]
    = Some s
    /\ Forall (fun x => x <> NA) s.
Proof.
  apply (add_lag_columns_drop_na
           [("date", [Num 1; Num 2; Num 3; Num 4]);
            ("g", [Str "a"; Str "b"; Str "a"; Str "a"]);
            ("x", [Num 10; Num 20; Num 30; Num 40])]
           ["x"] (Some "g") 1 None "date").
  - vm_compute. reflexivity.
  - simpl. now left.
  - simpl. lia.
Defined.

(* ================================================================== *)
(** * Batches of the daily CRSP download *)

Lemma firstn_split {A : Type} (a c : nat) (l : list A) :
  firstn (a + c) l = firstn a l ++ firstn c (skipn a l).
Proof.
  revert l. induction a as [|a IH]; intros l; simpl; [reflexivity|].
  destruct l as [|x l]; simpl.
  - now rewrite firstn_nil.
  - now rewrite IH.
Qed.

Lemma ceil_div_bounds n d :
  (0 < d)%nat ->
  (n <= ceil_div n d * d)%nat
  /\ (0 < n -> (ceil_div n d - 1) * d < n)%nat.
Proof.
  intros Hd. unfold ceil_div.
  pose proof (Nat.div_mod_eq (n + d - 1) d) as E.
  pose proof (Nat.mod_upper_bound (n + d - 1) d ltac:(lia)) as Hm.
  split; [nia|]. intros Hn.
  assert (0 < (n + d - 1) / d)%nat by (apply Nat.div_str_pos; lia).
  nia.
Qed.

Lemma slice_next {A : Type} (d : nat) (l : list A) (k : nat) :
  firstn (Nat.min (k * d) (length l)) l
  ++ slice (k * d) (Nat.min ((k + 1) * d) (length l)) l
  = firstn (Nat.min ((k + 1) * d) (length l)) l.
Proof.
  unfold slice. destruct (Nat.le_gt_cases (k * d) (length l)) as [Hle|Hgt].
  - rewrite (Nat.min_l (k * d)) by assumption.
    rewrite <- firstn_split. f_equal.
    assert (k * d <= Nat.min ((k + 1) * d) (length l))%nat
      by (apply Nat.min_glb; lia).
    lia.
  - rewrite (Nat.min_r (k * d)) by lia.
    rewrite (Nat.min_r ((k + 1) * d)) by lia.
    replace (length l - k * d)%nat with 0%nat by lia.
    simpl. apply app_nil_r.
Qed.

Lemma permno_batches_prefix {A : Type} (d : nat) (l : list A) (k : nat) :
  concat (map (fun j => slice ((j - 1) * d)
                              (Nat.min (j * d) (length l)) l) (seq 1 k))
  = firstn (Nat.min (k * d) (length l)) l.
Proof.
  induction k as [|k IH]; [reflexivity|].
  rewrite seq_S, map_app, concat_app, IH.
  cbn [map concat]. rewrite app_nil_r.
  replace (1 + k - 1)%nat with k by lia.
  replace (1 + k)%nat with (k + 1)%nat by lia.
  replace (S k) with (k + 1)%nat by lia.
  apply slice_next.
Qed.

(** X12: for a positive batch size the batches of the daily CRSP download
    cut the list of permnos into consecutive pieces: put together in order
    they are the list, and every batch holds at least one and at most
    [batch_size] permnos. *)
Theorem permno_batches_partition {A : Type} (batch_size : nat)
        (permnos : list A) :
  (0 < batch_size)%nat ->
  concat (permno_batches batch_size permnos) = permnos
  /\ forall batch, In batch (permno_batches batch_size permnos) ->
                   (1 <= length batch <= batch_size)%nat.
Proof.
  intros Hd. destruct (ceil_div_bounds (length permnos) batch_size Hd)
    as [Hup Hlow].
  split.
  - unfold permno_batches. rewrite permno_batches_prefix.
    rewrite Nat.min_r by assumption. apply firstn_all.
  - intros batch Hin. unfold permno_batches in Hin.
    apply in_map_iff in Hin as (j & <- & Hj). apply in_seq in Hj.
    unfold slice. rewrite length_firstn, length_skipn.
    assert (Hn : (0 < length permnos)%nat).
    { destruct permnos; simpl; [|lia]. unfold ceil_div in Hj. simpl in Hj.
      rewrite Nat.div_small in Hj by lia. lia. }
    specialize (Hlow Hn).
    assert ((j - 1) * batch_size <= (ceil_div (length permnos) batch_size - 1)
                                    * batch_size)%nat
      by (apply Nat.mul_le_mono_r; lia).
    assert (j * batch_size = (j - 1) * batch_size + batch_size)%nat by nia.
    lia.
Qed.

Lemma permno_batches_partition_witness :
  concat (permno_batches 2 [10001; 10002; 10003; 10004; 10005])
  = [10001; 10002; 10003; 10004; 10005].
Proof.
  apply (permno_batches_partition 2 [10001; 10002; 10003; 10004; 10005]).
  lia.
Defined.

(* ================================================================== *)
(** * WRDS credentials *)

(** X13: [load_wrds_credentials] never returns an empty user or password;
    when both environment variables are set and non-empty they are returned
    and the configuration file is not consulted. *)
Theorem credentials_from_environment
        (env_user env_password : option string) (config_file : option yaml) :
  (forall u p, load_wrds_credentials env_user env_password config_file
               = Return (u, p) ->
               truthy u = true /\ truthy p = true)
  /\ (forall u p, env_user = Some u -> env_password = Some p ->
                  u <> "" -> p <> "" ->
                  load_wrds_credentials env_user env_password config_file
                  = Return (YStr u, YStr p)).
Proof.
  split.
  - intros u p. unfold load_wrds_credentials.
    match goal with
    | |- match ?x with _ => _ end = _ -> _ => destruct x as [[u0 p0]|e]
    end; [|discriminate].
    destruct (truthy u0) eqn:Eu, (truthy p0) eqn:Ep; simpl; try discriminate.
    intros H. inversion H; subst. auto.
  - intros u p -> -> Hu Hp. apply String.eqb_neq in Hu, Hp.
    unfold load_wrds_credentials, of_env, truthy. rewrite Hu, Hp.
    cbn [negb orb]. now rewrite Hu, Hp.
Qed.

(** X14: when an environment variable is missing or empty and a
    configuration file exists, the outcome is decided by the file alone: a
    user name or password that is set in the environment is not used. *)
Theorem credentials_not_mixed
        (env_user env_password env_user' env_password' : option string)
        (config : yaml) :
  truthy (of_env env_user) && truthy (of_env env_password) = false ->
  truthy (of_env env_user') && truthy (of_env env_password') = false ->
  load_wrds_credentials env_user env_password (Some config)
  = load_wrds_credentials env_user' env_password' (Some config).
Proof.
  intros H H'. unfold load_wrds_credentials.
  assert (E : negb (truthy (of_env env_user))
              || negb (truthy (of_env env_password)) = true)
    by (destruct (truthy (of_env env_user)),
                 (truthy (of_env env_password)); simpl in *; congruence).
  assert (E' : negb (truthy (of_env env_user'))
               || negb (truthy (of_env env_password')) = true)
    by (destruct (truthy (of_env env_user')),
                 (truthy (of_env env_password')); simpl in *; congruence).
  now rewrite E, E'.
Qed.

Lemma credentials_not_mixed_witness :
  load_wrds_credentials (Some "alice") None
    (Some (YMap [("WRDS", YMap [("USER", YStr "bob");
                                ("PASSWORD", YStr "secret")])]))
  = load_wrds_credentials None None
    (Some (YMap [("WRDS", YMap [("USER", YStr "bob");
                                ("PASSWORD", YStr "secret")])])).
Proof.
  apply (credentials_not_mixed (Some "alice") None None None);
    reflexivity.
Defined.
